(** * Crypto dashboard (app.py): fetch-and-cache, metrics, chart series

    A shallow embedding of [src/app.py].  The script is a Streamlit page:
    [fetch_crypto_data] (memoised by [st.cache_data(ttl=300)]) asks the
    exchange client for OHLCV rows and turns them into a data frame,
    [format_price] renders a price, and the body of [main] fetches the three
    configured symbols ([fetch_all]), then plots one trace per fetched symbol
    and shows one metric per fetched symbol ([render]).  The sidebar of
    [main] (lines 60-74 and 161-163: the title, the refresh button, the
    period selector and the time-stamped caption) is not modelled; the
    statements below are about the fetch loop and the rendering.

    Prices are [numpy.float64] values; they are modelled by the IEEE 754
    binary64 specification of the Standard Library ([spec_float] with
    [prec = 53], [emax = 1024]), so that division by zero, infinities and
    NaN behave as they do in the program. *)

From Stdlib Require Import ZArith Lia List Bool Ascii String SpecFloat.
From stdpp Require Import gmap strings.

Import ListNotations.
Local Open Scope Z_scope.

(** ** Binary64 numbers *)

Module F64.

Definition prec : Z := 53.
Definition emax : Z := 1024.

Definition t : Type := spec_float.

Definition of_Z (z : Z) : t := binary_normalize prec emax z 0 false.

(** [dyadic m e] is the binary64 number nearest to [m * 2^e]. *)
Definition dyadic (m e : Z) : t := binary_normalize prec emax m e false.

Definition sub : t -> t -> t := SFsub prec emax.
Definition div : t -> t -> t := SFdiv prec emax.
Definition mul : t -> t -> t := SFmul prec emax.

(** [x >= y] of Python floats: false as soon as one side is NaN. *)
Definition ge (x y : t) : bool := SFleb y x.
Definition lt (x y : t) : bool := SFltb x y.

Definition valid (x : t) : bool := valid_binary prec emax x.

Definition is_finite (x : t) : bool :=
  match x with
  | S754_zero _ | S754_finite _ _ _ => true
  | S754_infinity _ | S754_nan => false
  end.

Definition is_zero (x : t) : bool :=
  match x with
  | S754_zero _ => true
  | _ => false
  end.

Definition sign_bit (x : t) : bool :=
  match x with
  | S754_zero s | S754_infinity s | S754_finite s _ _ => s
  | S754_nan => false
  end.

End F64.

Abbreviation float64 := F64.t.

(** ** Python's fixed-point float formatting

    [format(x, "[+][,].df")]: the decimal expansion of the exact binary value
    of [x], correctly rounded (ties to even) to [d] places. *)

Module PyFormat.

Definition digit_char (n : Z) : ascii :=
  ascii_of_nat (48 + Z.to_nat n).

Definition is_digit (c : ascii) : bool :=
  let n := nat_of_ascii c in (48 <=? n)%nat && (n <=? 57)%nat.

Fixpoint to_digits (fuel : nat) (n : Z) (acc : list ascii) : list ascii :=
  match fuel with
  | O => acc
  | S fuel' =>
      let acc' := digit_char (n mod 10) :: acc in
      if n <? 10 then acc' else to_digits fuel' (n / 10) acc'
  end.

(** Decimal digits of a non-negative integer, most significant first. *)
Definition decimal (n : Z) : list ascii :=
  to_digits (S (Z.to_nat (Z.log2 n))) n [].

(** The integer nearest to [m * 2^e * 10^d], ties to even. *)
Definition scaled_round (m : positive) (e : Z) (d : nat) : Z :=
  let num := Z.pos m * 10 ^ Z.of_nat d in
  if 0 <=? e then num * 2 ^ e
  else
    let den := 2 ^ (- e) in
    let q := num / den in
    let r := num mod den in
    match 2 * r ?= den with
    | Lt => q
    | Gt => q + 1
    | Eq => if Z.even q then q else q + 1
    end.

(** Left-pads with ["0"] up to [n] characters. *)
Definition zero_pad (n : nat) (l : list ascii) : list ascii :=
  repeat "0"%char (n - length l) ++ l.

(** Commas every three digits, counted from the right; the argument is
    the digit string reversed. *)
Fixpoint group3_rev (l : list ascii) : list ascii :=
  match l with
  | a :: b :: c :: ((_ :: _) as rest) =>
      a :: b :: c :: ","%char :: group3_rev rest
  | _ => l
  end.

Definition group3 (l : list ascii) : list ascii :=
  rev (group3_rev (rev l)).

Record spec := { plus : bool; comma : bool; places : nat }.

Definition sign_text (f : spec) (neg : bool) : list ascii :=
  if neg then ["-"%char] else if plus f then ["+"%char] else [].

Definition fixed (f : spec) (neg : bool) (n : Z) : list ascii :=
  let ds := zero_pad (S (places f)) (decimal n) in
  let k := (length ds - places f)%nat in
  let ip := firstn k ds in
  let fp := skipn k ds in
  sign_text f neg ++ (if comma f then group3 ip else ip)
    ++ match places f with
       | O => []
       | S _ => "."%char :: fp
       end.

Definition format_float (f : spec) (x : float64) : list ascii :=
  match x with
  | S754_nan => sign_text f false ++ list_ascii_of_string "nan"
  | S754_infinity s => sign_text f s ++ list_ascii_of_string "inf"
  | S754_zero s => fixed f s 0
  | S754_finite s m e => fixed f s (scaled_round m e (places f))
  end.

End PyFormat.

(** ** [format_price] (app.py, lines 52-57) *)

Definition format_price (price : float64) : string :=
  if F64.ge price (F64.of_Z 1000)
  then string_of_list_ascii
         ("$"%char :: PyFormat.format_float
                        {| PyFormat.plus := false; PyFormat.comma := true;
                           PyFormat.places := 2 |} price)
  else string_of_list_ascii
         ("$"%char :: PyFormat.format_float
                        {| PyFormat.plus := false; PyFormat.comma := false;
                           PyFormat.places := 4 |} price).

(** [f"{price_change:+.2f}%"] (app.py, lines 143, 150, 157). *)
Definition format_change (price_change : float64) : string :=
  string_of_list_ascii
    (PyFormat.format_float
       {| PyFormat.plus := true; PyFormat.comma := false;
          PyFormat.places := 2 |} price_change ++ ["%"%char]).


(** ** Exceptions and results *)

(** A raised Python exception: its class name and [str(e)]. *)
Record exn := Exn { exn_class : string; exn_msg : string }.

Definition Res (A : Type) : Type := exn + A.

#[global] Instance Res_ret : MRet Res := λ A x, inr x.
#[global] Instance Res_bind : MBind Res :=
  λ A B f m, match m with inl e => inl e | inr a => f a end.

Definition IndexError : exn :=
  Exn "IndexError" "single positional indexer is out-of-bounds".
Definition KeyError (key : string) : exn :=
  Exn "KeyError" ("'" +:+ key +:+ "'").
Definition ValueError (lit : string) : exn :=
  Exn "ValueError" ("invalid literal for int() with base 16: '" +:+ lit +:+ "'").

(** ** Data frames *)

(** One row of [fetch_ohlcv]: [[timestamp, open, high, low, close, volume]],
    the timestamp in milliseconds since the epoch. *)
Record OHLCV := {
  ohlcv_timestamp : Z;
  ohlcv_open : float64;
  ohlcv_high : float64;
  ohlcv_low : float64;
  ohlcv_close : float64;
  ohlcv_volume : float64
}.

(** An instant, as the milliseconds since the epoch it was converted from. *)
Record Datetime := { epoch_ms : Z }.

(** The exception of a conversion out of bounds; its message, which in
    pandas also quotes the offending value, is abridged. *)
Definition OutOfBoundsDatetime : exn :=
  Exn "OutOfBoundsDatetime" "cannot convert input with unit 'ms'".

(** Whether a millisecond count denotes an instant a pandas datetime can
    hold: the count of nanoseconds has to fit a signed 64-bit integer
    (years 1677 to 2262). *)
Definition datetime_in_bounds (ms : Z) : bool :=
  (- 9223372036854775807 <=? ms * 1000000)
  && (ms * 1000000 <=? 9223372036854775807).

(** [pd.to_datetime(column, unit='ms')]: the whole conversion raises as soon
    as one value is out of bounds. *)
Definition to_datetime (stamps : list Z) : Res (list Datetime) :=
  if forallb datetime_in_bounds stamps
  then inr (map (fun ms => {| epoch_ms := ms |}) stamps)
  else inl OutOfBoundsDatetime.

Record Row := {
  timestamp : Datetime;
  open : float64;
  high : float64;
  low : float64;
  close : float64;
  volume : float64
}.

Abbreviation DataFrame := (list Row).

(** [df[c]] for a column [c]. *)
Definition column {A : Type} (c : Row -> A) (df : DataFrame) : list A :=
  map c df.

(** [series.iloc[i]] for an integer [i]: negative positions count from the
    end, and a position outside the series raises [IndexError]. *)
Definition iloc {A : Type} (series : list A) (i : Z) : Res A :=
  let n := Z.of_nat (length series) in
  let j := if i <? 0 then i + n else i in
  if (0 <=? j) && (j <? n)
  then match nth_error series (Z.to_nat j) with
       | Some v => inr v
       | None => inl IndexError
       end
  else inl IndexError.

(** [pd.DataFrame(ohlcv, columns=[...])] followed by the conversion of the
    timestamp column, which may raise (app.py, lines 42-46). *)
Definition make_frame (ohlcv : list OHLCV) : Res DataFrame :=
  stamps ← to_datetime (map ohlcv_timestamp ohlcv);
  mret (zip_with
          (fun t r => {| timestamp := t;
                         open := ohlcv_open r; high := ohlcv_high r;
                         low := ohlcv_low r; close := ohlcv_close r;
                         volume := ohlcv_volume r |}) stamps ohlcv).

(** ** Insertion-ordered dictionaries *)

Module Dict.

Definition t (V : Type) : Type := list (string * V).

Fixpoint get {V : Type} (d : t V) (k : string) : option V :=
  match d with
  | [] => None
  | (k', v) :: d' => if String.eqb k k' then Some v else get d' k
  end.

(** [d[k] = v]: an existing key keeps its position. *)
Fixpoint set {V : Type} (d : t V) (k : string) (v : V) : t V :=
  match d with
  | [] => [(k, v)]
  | (k', v') :: d' =>
      if String.eqb k k' then (k, v) :: d' else (k', v') :: set d' k v
  end.

(** [d[k]] in an expression. *)
Definition item {V : Type} (d : t V) (k : string) : Res V :=
  match get d k with
  | Some v => inr v
  | None => inl (KeyError k)
  end.

End Dict.

(** ** String operations used by the script *)

Module Str.

(** [s.split(sep)[0]]: the text before the first [sep]. *)
Fixpoint split_head (sep : ascii) (s : string) : string :=
  match s with
  | EmptyString => EmptyString
  | String c s' =>
      if Ascii.eqb c sep then EmptyString else String c (split_head sep s')
  end.

(** [s.lstrip(c)] for a single character [c]. *)
Fixpoint lstrip (c : ascii) (s : string) : string :=
  match s with
  | String c' s' => if Ascii.eqb c' c then lstrip c s' else s
  | EmptyString => EmptyString
  end.

(** [s[i:j]] for [0 <= i <= j]. *)
Definition slice (s : string) (i j : nat) : string :=
  String.substring i (j - i) s.

Definition hex_digit (c : ascii) : option Z :=
  let n := Z.of_nat (nat_of_ascii c) in
  if (48 <=? n) && (n <=? 57) then Some (n - 48)
  else if (97 <=? n) && (n <=? 102) then Some (n - 87)
  else if (65 <=? n) && (n <=? 70) then Some (n - 55)
  else None.

Fixpoint hex_value (s : string) (acc : Z) : option Z :=
  match s with
  | EmptyString => Some acc
  | String c s' =>
      match hex_digit c with
      | Some d => hex_value s' (16 * acc + d)
      | None => None
      end
  end.

(** [int(s, 16)] on a string of hexadecimal digits. *)
Definition int16 (s : string) : Res Z :=
  match s with
  | EmptyString => inl (ValueError s)
  | _ => match hex_value s 0 with
         | Some v => inr v
         | None => inl (ValueError s)
         end
  end.

(** [str(n)] for a non-negative integer. *)
Definition of_Z (n : Z) : string :=
  string_of_list_ascii (PyFormat.decimal n).

End Str.

(** ** The chart (app.py, lines 88-106) *)

Record Scatter := {
  x : list Datetime;
  y : list float64;
  name : string;
  line_color : string;
  fill : string;
  fillcolor : string
}.

Definition Figure : Type := list Scatter.

Definition colors : Dict.t string :=
  [("BTC/USDT", "#f7931a"); ("ETH/USDT", "#62688f"); ("SOL/USDT", "#00ff9d")]%string.

(** [f"rgba{tuple(list(int(c.lstrip('#')[i:i+2], 16) for i in (0, 2, 4)) + [0.2])}"] *)
Definition rgba (c : string) : Res string :=
  let h := Str.lstrip "#" c in
  r ← Str.int16 (Str.slice h 0 2);
  g ← Str.int16 (Str.slice h 2 4);
  b ← Str.int16 (Str.slice h 4 6);
  mret ("rgba(" +:+ Str.of_Z r +:+ ", " +:+ Str.of_Z g +:+ ", "
          +:+ Str.of_Z b +:+ ", 0.2)").

(** The [go.Scatter] built for one entry of [crypto_data]. *)
Definition scatter (symbol : string) (df : DataFrame) : Res Scatter :=
  color ← Dict.item colors symbol;
  fc ← rgba color;
  mret {| x := column timestamp df;
          y := column close df;
          name := Str.split_head "/" symbol;
          line_color := color;
          fill := "tonexty";
          fillcolor := fc |}.

(** The loop over [crypto_data.items()] adding one trace per entry. *)
Fixpoint add_traces (items : Dict.t DataFrame) (fig : Figure) : Res Figure :=
  match items with
  | [] => mret fig
  | (symbol, df) :: rest =>
      tr ← scatter symbol df;
      add_traces rest (fig ++ [tr])
  end.

(** ** The metrics (app.py, lines 134-137) *)

Record Metrics := {
  current_price : float64;
  price_change : float64;
  daily_high : float64;
  daily_low : float64
}.

Definition metrics (df : DataFrame) : Res Metrics :=
  current_price ← iloc (column close df) (-1);
  previous ← iloc (column close df) (-2);
  divisor ← iloc (column close df) (-2);
  let price_change :=
    F64.mul (F64.div (F64.sub current_price previous) divisor) (F64.of_Z 100) in
  daily_high ← iloc (column high df) (-1);
  daily_low ← iloc (column low df) (-1);
  mret {| current_price := current_price; price_change := price_change;
          daily_high := daily_high; daily_low := daily_low |}.

(** ** The page and the process state *)

Inductive Column := col1 | col2 | col3.

Inductive Element :=
| st_error (body : string)
| plotly_chart (fig : Figure)
| st_header (body : string)
| st_metric (col : Column) (label value delta : string)
| st_caption (col : Column) (body : string).

(** The arguments of one call of [fetch_crypto_data]. *)
Definition Key : Type := string * string * Z.

(** What [st.cache_data] keeps for one key: the returned value, the elements
    the call put on the page (replayed on a hit) and the time of storage. *)
Record CacheEntry := {
  cached_value : option DataFrame;
  cached_elements : list Element;
  stored_at : Z
}.

Record World := {
  cache : gmap (string * string * Z) CacheEntry;
  clock : Z;                  (* seconds *)
  calls : list Key;           (* requests sent to the exchange, oldest first *)
  ui : list Element           (* elements on the page, in order *)
}.

Definition M (A : Type) : Type := World -> Res A * World.

#[global] Instance M_ret : MRet M := λ A a w, (inr a, w).
#[global] Instance M_bind : MBind M :=
  λ A B f m w, match m w with
               | (inl e, w') => (inl e, w')
               | (inr a, w') => f a w'
               end.

Definition lift {A : Type} (r : Res A) : M A := λ w, (r, w).

(** [try: body  except Exception as e: handler(e)] *)
Definition try_except {A : Type} (body : M A) (handler : exn -> M A) : M A :=
  λ w, match body w with
       | (inl e, w') => handler e w'
       | (inr a, w') => (inr a, w')
       end.

(** The page after [es] are put on it. *)
Definition replay (es : list Element) (w : World) : World :=
  {| cache := cache w; clock := clock w; calls := calls w; ui := ui w ++ es |}.

Definition emit (e : Element) : M unit := λ w, (inr tt, replay [e] w).

(** The process after one more request [k] went to the exchange. *)
Definition request (k : Key) (w : World) : World :=
  {| cache := cache w; clock := clock w; calls := calls w ++ [k]; ui := ui w |}.

(** Time passing between two script runs. *)
Definition advance (seconds : Z) (w : World) : World :=
  {| cache := cache w; clock := clock w + seconds; calls := calls w;
     ui := ui w |}.

(** [st.cache_data.clear()] (app.py, line 67). *)
Definition cache_clear : M unit :=
  λ w, (inr tt, {| cache := ∅; clock := clock w; calls := calls w;
                   ui := ui w |}).

Definition initial_world : World :=
  {| cache := ∅; clock := 0; calls := []; ui := [] |}.

(** ** Fetching, caching and the script body *)

Definition ttl : Z := 300.

(** The entry for [k] that a lookup at the current time may still serve. *)
Definition cache_read (w : World) (k : Key) : option CacheEntry :=
  match cache w !! k with
  | Some e => if clock w <? stored_at e + ttl then Some e else None
  | None => None
  end.

Definition cache_write (k : Key) (e : CacheEntry) (w : World) : World :=
  {| cache := <[k := e]> (cache w); clock := clock w; calls := calls w;
     ui := ui w |}.

(** [@st.cache_data(ttl=300)] around a function of the call arguments: a
    fresh entry is served (its value returned, its elements replayed)
    without running the function; otherwise the function runs and, when it
    returns, whatever it returned is stored under the arguments. *)
Definition cache_data (f : Key -> M (option DataFrame)) (k : Key)
  : M (option DataFrame) :=
  λ w, match cache_read w k with
       | Some e => (inr (cached_value e), replay (cached_elements e) w)
       | None =>
           match f k w with
           | (inr v, w') =>
               (inr v,
                cache_write k {| cached_value := v;
                                 cached_elements := skipn (length (ui w)) (ui w');
                                 stored_at := clock w' |} w')
           | (inl e, w') => (inl e, w')
           end
       end.

(** [f"Error fetching data for {symbol}: {str(e)}"] *)
Definition error_text (symbol : string) (e : exn) : string :=
  "Error fetching data for " +:+ symbol +:+ ": " +:+ exn_msg e.

Section Dashboard.

(** The exchange client ([st.session_state.exchange]): the answer to the
    [n]-th request made in the life of the process, either the rows or
    the exception raised. *)
Variable exchange : nat -> Key -> Res (list OHLCV).

Definition fetch_ohlcv (symbol timeframe : string) (limit : Z)
  : M (list OHLCV) :=
  λ w, (exchange (length (calls w)) (symbol, timeframe, limit),
        request (symbol, timeframe, limit) w).

(** The undecorated function (app.py, lines 33-50). *)
Definition fetch_crypto_data_body (k : Key) : M (option DataFrame) :=
  let '(symbol, timeframe, limit) := k in
  try_except
    (ohlcv ← fetch_ohlcv symbol timeframe limit;
     df ← lift (make_frame ohlcv);
     mret (Some df))
    (λ e, emit (st_error (error_text symbol e));; mret None).

Definition fetch_crypto_data (symbol timeframe : string) (limit : Z)
  : M (option DataFrame) :=
  cache_data fetch_crypto_data_body (symbol, timeframe, limit).

Definition symbols : list string :=
  ["BTC/USDT"; "ETH/USDT"; "SOL/USDT"]%string.

(** The fetch loop (app.py, lines 82-85). *)
Fixpoint fetch_all (syms : list string) (days : Z)
    (crypto_data : Dict.t DataFrame) : M (Dict.t DataFrame) :=
  match syms with
  | [] => mret crypto_data
  | symbol :: rest =>
      df ← fetch_crypto_data symbol "1d" days;
      fetch_all rest days
        match df with
        | Some df => Dict.set crypto_data symbol df
        | None => crypto_data
        end
  end.

(** The three widgets shown for one symbol (app.py, lines 139-159). *)
Definition show (col : Column) (label : string) (m : Metrics) : M unit :=
  emit (st_metric col label (format_price (current_price m))
          (format_change (price_change m)));;
  emit (st_caption col ("24h High: " +:+ format_price (daily_high m)));;
  emit (st_caption col ("24h Low: " +:+ format_price (daily_low m))).

Definition display (symbol : string) (m : Metrics) : M unit :=
  if String.eqb symbol "BTC/USDT" then show col1 "Bitcoin" m
  else if String.eqb symbol "ETH/USDT" then show col2 "Ethereum" m
  else show col3 "Solana" m.

(** The metrics loop (app.py, lines 133-159). *)
Fixpoint metrics_loop (items : Dict.t DataFrame) : M unit :=
  match items with
  | [] => mret tt
  | (symbol, df) :: rest =>
      m ← lift (metrics df);
      display symbol m;;
      metrics_loop rest
  end.

(** Everything [main] does with the data once it is fetched
    (app.py, lines 87-159). *)
Definition render (crypto_data : Dict.t DataFrame) : M unit :=
  fig ← lift (add_traces crypto_data []);
  emit (plotly_chart fig);;
  emit (st_header "📊 Market Overview");;
  metrics_loop crypto_data.

(** The part of [main] that works on the data (app.py, lines 77-159): the
    fetch loop followed by the chart and the metrics, for a period of [days].
    What [main] does before (title, sidebar widgets, lines 60-74) and after
    (the sidebar caption, lines 161-163) is not part of it. *)
Definition main (days : Z) : M unit :=
  crypto_data ← fetch_all symbols days [];
  render crypto_data.

End Dashboard.

(** ** Reading a formatted number back *)

Module Reading.

Definition digit_value (c : ascii) : Z := Z.of_nat (nat_of_ascii c) - 48.

(** The number written by a string of decimal digits. *)
Definition value (l : list ascii) : Z :=
  fold_left (fun acc c => 10 * acc + digit_value c) l 0.

(** [sep.join(groups)] *)
Fixpoint join (sep : ascii) (groups : list (list ascii)) : list ascii :=
  match groups with
  | [] => []
  | [g] => g
  | g :: rest => g ++ sep :: join sep rest
  end.

(** Every character is a decimal digit. *)
Definition digits (l : list ascii) : Prop :=
  Forall (fun c => PyFormat.is_digit c = true) l.

(** Digits in groups of three, the first group having one to three. *)
Definition thousands (groups : list (list ascii)) : Prop :=
  match groups with
  | [] => False
  | g :: rest =>
      (1 <= length g <= 3)%nat /\ Forall (fun g' => length g' = 3%nat) rest
  end.

(** [n] is an integer nearest to [m * 2^e * 10^d], and the even one when
    two integers are equally near. *)
Definition nearest (n : Z) (m : positive) (e : Z) (d : nat) : Prop :=
  let up := 2 ^ Z.max e 0 in
  let down := 2 ^ Z.max (- e) 0 in
  let err := Z.abs (2 * (n * down - Z.pos m * 10 ^ Z.of_nat d * up)) in
  err <= down /\ (err = down -> Z.even n = true).

(** [n] is the magnitude of [x] rounded to [d] decimal places, as an
    integer count of units in the last place. *)
Definition rounds (x : float64) (d : nat) (n : Z) : Prop :=
  match x with
  | S754_zero _ => n = 0
  | S754_finite _ m e => nearest n m e d
  | S754_infinity _ | S754_nan => False
  end.

End Reading.

(** ** Sample data and notions used in the statements *)

Definition sample_row (t : Z) (h l c : float64) : Row :=
  {| timestamp := {| epoch_ms := t |}; open := c; high := h; low := l;
     close := c; volume := F64.of_Z 1 |}.

(** Three daily candles closing at 100, 105 and 95; the first one has the
    highest high and the lowest low of the window. *)
Definition sample_frame : DataFrame :=
  [ sample_row 86400000 (F64.of_Z 120) (F64.of_Z 80) (F64.of_Z 100);
    sample_row 172800000 (F64.of_Z 106) (F64.of_Z 99) (F64.of_Z 105);
    sample_row 259200000 (F64.of_Z 104) (F64.of_Z 94) (F64.of_Z 95) ].

(** The three elements [show] puts on the page. *)
Definition widgets (col : Column) (label : string) (m : Metrics) : list Element :=
  [ st_metric col label (format_price (current_price m))
      (format_change (price_change m));
    st_caption col ("24h High: " +:+ format_price (daily_high m));
    st_caption col ("24h Low: " +:+ format_price (daily_low m)) ].

Definition zero_close_frame : DataFrame :=
  [ sample_row 86400000 (F64.of_Z 1) (F64.of_Z 0) (F64.of_Z 0);
    sample_row 172800000 (F64.of_Z 6) (F64.of_Z 4) (F64.of_Z 5) ].

(** An exchange whose first answer is a time-out and whose later answers
    are two candles closing at 100 and 110. *)
Definition flaky_exchange (n : nat) (k : Key) : Res (list OHLCV) :=
  match n with
  | O => inl (Exn "RequestTimeout" "binance GET request timed out")
  | S _ =>
      inr [ {| ohlcv_timestamp := 86400000; ohlcv_open := F64.of_Z 99;
               ohlcv_high := F64.of_Z 101; ohlcv_low := F64.of_Z 98;
               ohlcv_close := F64.of_Z 100; ohlcv_volume := F64.of_Z 7 |};
            {| ohlcv_timestamp := 172800000; ohlcv_open := F64.of_Z 100;
               ohlcv_high := F64.of_Z 111; ohlcv_low := F64.of_Z 100;
               ohlcv_close := F64.of_Z 110; ohlcv_volume := F64.of_Z 9 |} ]
  end.

(** An exchange that always answers with those two candles. *)
Definition steady_exchange (n : nat) (k : Key) : Res (list OHLCV) :=
  flaky_exchange (S n) k.

(** The entries of [crypto_data] after the fetch loop, given what each call
    of [fetch_crypto_data] returned: the symbols whose call returned a frame. *)
Fixpoint fetched (outcomes : list (string * option DataFrame))
  : Dict.t DataFrame :=
  match outcomes with
  | [] => []
  | (symbol, Some df) :: rest => (symbol, df) :: fetched rest
  | (symbol, None) :: rest => fetched rest
  end.


(** The trace [tr] plots the entry [item]: its timestamps against its
    closes, named after the base currency, in the colour of the symbol with
    the fill derived from that colour. *)
Definition plots (item : string * DataFrame) (tr : Scatter) : Prop :=
  x tr = column timestamp item.2 /\ y tr = column close item.2 /\
  name tr = Str.split_head "/" item.1 /\
  Dict.get colors item.1 = Some (line_color tr) /\
  fill tr = "tonexty"%string /\
  rgba (line_color tr) = inr (fillcolor tr).

(** The column and the label under which a symbol is shown. *)
Definition placement (symbol : string) : Column * string :=
  if String.eqb symbol "BTC/USDT" then (col1, "Bitcoin"%string)
  else if String.eqb symbol "ETH/USDT" then (col2, "Ethereum"%string)
  else (col3, "Solana"%string).

(** The metrics of a series as they read off its last two rows [c2] and
    [c1]; a series of fewer than two rows has none. *)
Definition last_two_metrics (df : DataFrame) : option Metrics :=
  match rev df with
  | c1 :: c2 :: _ =>
      Some {| current_price := close c1;
              price_change :=
                F64.mul (F64.div (F64.sub (close c1) (close c2)) (close c2))
                        (F64.of_Z 100);
              daily_high := high c1;
              daily_low := low c1 |}
  | _ => None
  end.

(** The widgets of one entry of [crypto_data]: none when its series is too
    short for the metrics. *)
Definition entry_widgets (item : string * DataFrame) : list Element :=
  match last_two_metrics item.2 with
  | Some m => widgets (placement item.1).1 (placement item.1).2 m
  | None => []
  end.

(** The series of an entry has the two candles the metrics need. *)
Definition long_enough (item : string * DataFrame) : Prop :=
  (2 <= length item.2)%nat.

(** ** Script runs *)


(** The requests of one run of [main] that finds nothing in the cache. *)
Definition requests (days : Z) : list Key :=
  [ ("BTC/USDT", "1d", days); ("ETH/USDT", "1d", days);
    ("SOL/USDT", "1d", days) ]%string.

(** What [fetch_crypto_data] returns and shows for one answer of the
    exchange: the frame and nothing, or, when the request or the conversion
    of the timestamps raised, [None] and the error message. *)
Definition outcome (symbol : string) (answer : Res (list OHLCV))
  : option DataFrame * list Element :=
  match answer ≫= make_frame with
  | inr df => (Some df, [])
  | inl err => (None, [st_error (error_text symbol err)])
  end.

(** An exchange whose first answer is a time-out, whose second answer is a
    single candle and whose later answers are two candles. *)
Definition short_exchange (n : nat) (k : Key) : Res (list OHLCV) :=
  match n with
  | 1%nat => match flaky_exchange 1 k with
             | inr rows => inr (take 1 rows)
             | inl e => inl e
             end
  | _ => flaky_exchange n k
  end.


(** An exchange that never answers. *)
Definition dead_exchange (n : nat) (k : Key) : Res (list OHLCV) :=
  inl (Exn "NetworkError" "binance GET failed").

(** The least binary64 number whose rounding to four decimal places is
    1000.0000 (about 999.99995). *)
Definition rounds_up_to_1000 : float64 :=
  S754_finite false 8796092582403349 (-43).

(** * Properties *)

(** ** Positional indexing *)

Lemma iloc_last {A : Type} (l : list A) (a : A) : iloc (l ++ [a]) (-1) = inr a.
Proof.
  unfold iloc. rewrite length_app. cbn [length].
  replace (-1 <? 0) with true by reflexivity.
  replace (-1 + Z.of_nat (length l + 1)) with (Z.of_nat (length l)) by lia.
  replace ((0 <=? Z.of_nat (length l))
             && (Z.of_nat (length l) <? Z.of_nat (length l + 1))) with true
    by (symmetry; apply andb_true_intro; split; [apply Z.leb_le | apply Z.ltb_lt]; lia).
  rewrite Nat2Z.id, nth_error_app2 by lia.
  now rewrite Nat.sub_diag.
Qed.

Lemma iloc_last2 {A : Type} (l : list A) (a b : A) :
  iloc (l ++ [a; b]) (-2) = inr a.
Proof.
  unfold iloc. rewrite length_app. cbn [length].
  replace (-2 <? 0) with true by reflexivity.
  replace (-2 + Z.of_nat (length l + 2)) with (Z.of_nat (length l)) by lia.
  replace ((0 <=? Z.of_nat (length l))
             && (Z.of_nat (length l) <? Z.of_nat (length l + 2))) with true
    by (symmetry; apply andb_true_intro; split; [apply Z.leb_le | apply Z.ltb_lt]; lia).
  rewrite Nat2Z.id, nth_error_app2 by lia.
  now rewrite Nat.sub_diag.
Qed.

(** A frame of at least two rows ends with its last two rows. *)
Lemma two_last_rows (df : DataFrame) (c2 c1 : Row) :
  df !! (length df - 2)%nat = Some c2 ->
  df !! (length df - 1)%nat = Some c1 ->
  (2 <= length df)%nat ->
  exists pre, df = pre ++ [c2; c1].
Proof.
  intros H2 H1 Hlen.
  exists (take (length df - 2) df).
  rewrite <- (take_drop (length df - 2) df) at 1. f_equal.
  assert (Hd : length (drop (length df - 2) df) = 2%nat)
    by (rewrite length_drop; lia).
  destruct (drop (length df - 2) df) as [|a [|b [|? ?]]] eqn:E;
    try discriminate Hd.
  pose proof (lookup_drop df (length df - 2) 0) as Ha.
  pose proof (lookup_drop df (length df - 2) 1) as Hb.
  rewrite E in Ha, Hb. cbn in Ha, Hb.
  rewrite Nat.add_0_r in Ha.
  replace (length df - 2 + 1)%nat with (length df - 1)%nat in Hb by lia.
  congruence.
Qed.

Lemma metrics_two_last (pre : DataFrame) (c2 c1 : Row) :
  metrics (pre ++ [c2; c1]) =
    inr {| current_price := close c1;
           price_change :=
             F64.mul (F64.div (F64.sub (close c1) (close c2)) (close c2))
                     (F64.of_Z 100);
           daily_high := high c1;
           daily_low := low c1 |}.
Proof.
  unfold metrics, column. rewrite !map_app. cbn [map].
  rewrite iloc_last2.
  replace ([close c2; close c1]) with ([close c2] ++ [close c1]) by reflexivity.
  replace ([high c2; high c1]) with ([high c2] ++ [high c1]) by reflexivity.
  replace ([low c2; low c1]) with ([low c2] ++ [low c1]) by reflexivity.
  rewrite !app_assoc, !iloc_last. reflexivity.
Qed.

Lemma metrics_short (df : DataFrame) :
  (length df < 2)%nat -> metrics df = inl IndexError.
Proof.
  intros H. unfold metrics, column.
  destruct df as [|c [|c' df]]; [reflexivity | reflexivity | cbn in H; lia].
Qed.

Lemma metrics_last_two (df : DataFrame) :
  metrics df = match last_two_metrics df with
               | Some m => inr m
               | None => inl IndexError
               end.
Proof.
  unfold last_two_metrics. rewrite <- (rev_involutive df) at 1.
  destruct (rev df) as [|c1 [|c2 l]]; [reflexivity | reflexivity |].
  cbn [rev]. rewrite <- app_assoc. apply metrics_two_last.
Qed.

(** ** The metrics of a series *)

(** C5: for a series of at least two candles the current price is the last
    close and the change is (last - previous) / previous * 100 in binary64
    arithmetic; closes [100, 110] give exactly 10.0, shown as "+10.00%", and
    closes [100, 105, 95] give a current price of 95 and a negative change
    shown as "-9.52%". *)
Theorem metrics_price_and_change :
  (forall (df : DataFrame) (c2 c1 : Row),
      (2 <= length df)%nat ->
      df !! (length df - 2)%nat = Some c2 ->
      df !! (length df - 1)%nat = Some c1 ->
      exists m, metrics df = inr m /\
        current_price m = close c1 /\
        price_change m =
          F64.mul (F64.div (F64.sub (close c1) (close c2)) (close c2))
                  (F64.of_Z 100))
  /\ (forall df : DataFrame,
        column close df = [F64.of_Z 100; F64.of_Z 110] ->
        exists m, metrics df = inr m /\
          price_change m = F64.of_Z 10 /\
          format_change (price_change m) = "+10.00%"%string)
  /\ (forall df : DataFrame,
        column close df = [F64.of_Z 100; F64.of_Z 105; F64.of_Z 95] ->
        exists m, metrics df = inr m /\
          current_price m = F64.of_Z 95 /\
          F64.sign_bit (price_change m) = true /\
          format_change (price_change m) = "-9.52%"%string).
Proof.
  split; [|split].
  - intros df c2 c1 Hlen H2 H1.
    destruct (two_last_rows df c2 c1 H2 H1 Hlen) as [pre ->].
    rewrite metrics_two_last. eexists; split; [reflexivity|]. split; reflexivity.
  - intros df H. destruct df as [|r2 [|r1 [|? ?]]]; try discriminate H.
    injection H as H2 H1.
    change [r2; r1] with ([] ++ [r2; r1]). rewrite metrics_two_last.
    eexists; split; [reflexivity|]. cbn [price_change]. rewrite H1, H2.
    split; vm_compute; reflexivity.
  - intros df H. destruct df as [|r3 [|r2 [|r1 [|? ?]]]]; try discriminate H.
    injection H as H3 H2 H1.
    change [r3; r2; r1] with ([r3] ++ [r2; r1]). rewrite metrics_two_last.
    eexists; split; [reflexivity|]. cbn [price_change current_price].
    rewrite H1, H2. repeat split; vm_compute; reflexivity.
Qed.

Lemma metrics_price_and_change_witness :
  exists m, metrics sample_frame = inr m /\
    current_price m = F64.of_Z 95 /\
    price_change m =
      F64.mul (F64.div (F64.sub (F64.of_Z 95) (F64.of_Z 105)) (F64.of_Z 105))
              (F64.of_Z 100).
Proof.
  apply (proj1 metrics_price_and_change sample_frame
           (sample_row 172800000 (F64.of_Z 106) (F64.of_Z 99) (F64.of_Z 105))
           (sample_row 259200000 (F64.of_Z 104) (F64.of_Z 94) (F64.of_Z 95)));
    [cbn; lia | reflexivity | reflexivity].
Defined.

(** C6: for a series of at least two candles the daily high and low are the
    high and low of the last candle, whatever the earlier candles hold; they
    are not the extremes of the window (in [sample_frame] an earlier candle
    has a higher high and a lower low). *)
Theorem metrics_high_low_of_last_candle :
  (forall (df : DataFrame) (c1 : Row),
      (2 <= length df)%nat ->
      df !! (length df - 1)%nat = Some c1 ->
      exists m, metrics df = inr m /\
        daily_high m = high c1 /\ daily_low m = low c1)
  /\ (exists m c, metrics sample_frame = inr m /\ c ∈ sample_frame /\
        F64.lt (daily_high m) (high c) = true /\
        F64.lt (low c) (daily_low m) = true).
Proof.
  split.
  - intros df c1 Hlen H1.
    destruct (df !! (length df - 2)%nat) as [c2|] eqn:H2.
    + destruct (two_last_rows df c2 c1 H2 H1 Hlen) as [pre ->].
      rewrite metrics_two_last. eexists; split; [reflexivity|].
      split; reflexivity.
    + apply lookup_ge_None in H2. lia.
  - eexists. exists (sample_row 86400000 (F64.of_Z 120) (F64.of_Z 80) (F64.of_Z 100)).
    split; [vm_compute; reflexivity|].
    split; [apply list_elem_of_here|].
    split; vm_compute; reflexivity.
Qed.

Lemma metrics_high_low_of_last_candle_witness :
  exists m, metrics sample_frame = inr m /\
    daily_high m = F64.of_Z 104 /\ daily_low m = F64.of_Z 94.
Proof.
  apply (proj1 metrics_high_low_of_last_candle sample_frame
           (sample_row 259200000 (F64.of_Z 104) (F64.of_Z 94) (F64.of_Z 95)));
    [cbn; lia | reflexivity].
Defined.

(** ** Short series and zero reference prices *)

Lemma metrics_total (df : DataFrame) :
  (2 <= length df)%nat -> exists m, metrics df = inr m.
Proof.
  intros Hlen.
  destruct (df !! (length df - 2)%nat) as [c2|] eqn:H2;
    [|apply lookup_ge_None in H2; lia].
  destruct (df !! (length df - 1)%nat) as [c1|] eqn:H1;
    [|apply lookup_ge_None in H1; lia].
  destruct (two_last_rows df c2 c1 H2 H1 Hlen) as [pre ->].
  rewrite metrics_two_last. eexists; reflexivity.
Qed.

Lemma metrics_raises_only_IndexError (df : DataFrame) (e : exn) :
  metrics df = inl e -> e = IndexError /\ (length df < 2)%nat.
Proof.
  intros H. destruct (le_lt_dec 2 (length df)) as [Hlen|Hlen].
  - destruct (metrics_total df Hlen) as [m Hm]. congruence.
  - rewrite (metrics_short df Hlen) in H. split; [congruence | exact Hlen].
Qed.

Lemma show_spec (col : Column) (label : string) (m : Metrics) (w : World) :
  show col label m w = (inr tt, replay (widgets col label m) w).
Proof.
  unfold show, widgets, emit, mbind, M_bind, replay. cbn.
  now rewrite <- !app_assoc.
Qed.

Lemma display_returns (symbol : string) (m : Metrics) (w : World) :
  exists col label, display symbol m w = (inr tt, replay (widgets col label m) w).
Proof.
  unfold display.
  destruct (String.eqb symbol "BTC/USDT"); [|destruct (String.eqb symbol "ETH/USDT")];
    do 2 eexists; apply show_spec.
Qed.

Lemma metrics_loop_cons (symbol : string) (df : DataFrame)
    (rest : Dict.t DataFrame) (w : World) :
  metrics_loop ((symbol, df) :: rest) w =
    match metrics df with
    | inl e => (inl e, w)
    | inr m => metrics_loop rest (snd (display symbol m w))
    end.
Proof.
  cbn [metrics_loop]. unfold mbind at 1, M_bind, lift.
  destruct (metrics df) as [e|m]; [reflexivity|].
  unfold mbind, M_bind.
  destruct (display_returns symbol m w) as (col & label & ->). reflexivity.
Qed.

Lemma replay_replay (a b : list Element) (w : World) :
  replay b (replay a w) = replay (a ++ b) w.
Proof. unfold replay. cbn. now rewrite app_assoc. Qed.

Lemma replay_nil (w : World) : replay [] w = w.
Proof. destruct w. unfold replay. cbn. now rewrite app_nil_r. Qed.

Lemma display_placement (symbol : string) (m : Metrics) (w : World) :
  display symbol m w =
    (inr tt, replay (widgets (placement symbol).1 (placement symbol).2 m) w).
Proof.
  unfold display, placement.
  destruct (String.eqb symbol "BTC/USDT"); [|destruct (String.eqb symbol "ETH/USDT")];
    apply show_spec.
Qed.

(** Entries whose series have their two candles are shown one after the
    other, and the loop goes on with what follows them. *)
Lemma metrics_loop_prefix (before items : Dict.t DataFrame) :
  Forall long_enough before ->
  forall w, metrics_loop (before ++ items) w =
              metrics_loop items (replay (concat (map entry_widgets before)) w).
Proof.
  induction 1 as [|[s df] before Hlen _ IH]; intros w.
  - cbn [app map concat]. now rewrite replay_nil.
  - destruct (metrics_total df Hlen) as [m Hm].
    cbn [app]. rewrite metrics_loop_cons, Hm, display_placement.
    cbn [snd map concat]. rewrite IH, replay_replay.
    unfold entry_widgets at 2. cbn [fst snd].
    rewrite metrics_last_two in Hm.
    destruct (last_two_metrics df); [|discriminate Hm].
    now injection Hm as ->.
Qed.

(** C2 (as the code behaves): a series of length 0 or 1 makes the metrics
    computation raise [IndexError]; nothing catches it, so the metrics loop
    of [main] stops with that exception as soon as one fetched series is
    that short; a series of length at least 2 always yields metrics. *)
Theorem metrics_short_series_raises :
  forall df : DataFrame,
    ((length df < 2)%nat ->
       metrics df = inl IndexError /\
       forall (symbol : string) (items : Dict.t DataFrame) (w : World),
         (symbol, df) ∈ items ->
         fst (metrics_loop items w) = inl IndexError)
    /\ ((2 <= length df)%nat -> exists m, metrics df = inr m).
Proof.
  intros df. split; [|apply metrics_total].
  intros Hlen. split; [apply metrics_short, Hlen|].
  intros symbol items. induction items as [|[s d] rest IH]; intros w Hin.
  - inversion Hin.
  - rewrite metrics_loop_cons.
    destruct (metrics d) as [e|m] eqn:Hm.
    + cbn. f_equal. apply (metrics_raises_only_IndexError d e Hm).
    + apply IH. apply elem_of_cons in Hin as [Heq|Hin]; [|assumption].
      injection Heq as _ <-.
      rewrite (metrics_short df Hlen) in Hm. discriminate.
Qed.

Lemma metrics_short_series_raises_witness :
  metrics (take 1 sample_frame) = inl IndexError /\
  fst (metrics_loop [("BTC/USDT"%string, sample_frame);
                     ("ETH/USDT"%string, take 1 sample_frame)] initial_world)
    = inl IndexError.
Proof.
  destruct (proj1 (metrics_short_series_raises (take 1 sample_frame))) as [H1 H2];
    [cbn; lia|].
  split; [exact H1|]. apply (H2 "ETH/USDT"%string).
  apply list_elem_of_further, list_elem_of_here.
Defined.

(** C2 as stated fails on the empty series: the exception is not an
    [InsufficientDataError], and the metrics loop raises instead of leaving
    the symbol out. *)
Lemma metrics_short_series_counterexample :
  (length ([] : DataFrame) < 2)%nat /\
  ~ (exists e, metrics [] = inl e /\
               exn_class e = "InsufficientDataError"%string) /\
  ~ (exists w', metrics_loop [("BTC/USDT"%string, [])] initial_world
                = (inr tt, w')).
Proof.
  split; [cbn; lia|]. split.
  - intros (e & He & Hc). cbn in He. injection He as <-. discriminate Hc.
  - intros (w' & H). cbn in H. discriminate H.
Qed.

(** C3 (as the code behaves): when the second-to-last close is zero nothing
    is raised; binary64 division yields a change that is not finite: NaN
    when the last close is zero or NaN, an infinity otherwise.  The change
    is rendered "+nan%", "+inf%" or "-inf%", and when the metrics loop comes
    to the series, every series before it having its two candles, the metric
    of the symbol is put on the page with that text, then the two captions,
    and the loop goes on with the symbols that follow. *)
Theorem metrics_zero_previous_close :
  forall (df : DataFrame) (c2 c1 : Row),
    (2 <= length df)%nat ->
    df !! (length df - 2)%nat = Some c2 ->
    df !! (length df - 1)%nat = Some c1 ->
    F64.is_zero (close c2) = true ->
    exists m, metrics df = inr m /\
      F64.is_finite (price_change m) = false /\
      price_change m =
        match close c1 with
        | S754_nan | S754_zero _ => S754_nan
        | S754_infinity s | S754_finite s _ _ =>
            S754_infinity (xorb s (F64.sign_bit (close c2)))
        end /\
      format_change (price_change m) =
        match close c1 with
        | S754_nan | S754_zero _ => "+nan%"%string
        | S754_infinity s | S754_finite s _ _ =>
            if xorb s (F64.sign_bit (close c2)) then "-inf%"%string
            else "+inf%"%string
        end /\
      forall (symbol : string) (before rest : Dict.t DataFrame) (w : World),
        Forall long_enough before ->
        metrics_loop (before ++ (symbol, df) :: rest) w =
          metrics_loop rest
            (replay
               (concat (map entry_widgets before)
                ++ [ st_metric (placement symbol).1 (placement symbol).2
                       (format_price (close c1))
                       (format_change (price_change m));
                     st_caption (placement symbol).1
                       ("24h High: " +:+ format_price (high c1));
                     st_caption (placement symbol).1
                       ("24h Low: " +:+ format_price (low c1)) ]) w).
Proof.
  intros df c2 c1 Hlen H2 H1 Hz.
  destruct (two_last_rows df c2 c1 H2 H1 Hlen) as [pre ->].
  eexists. split; [apply metrics_two_last|].
  cbn [price_change].
  replace (F64.of_Z 100) with (S754_finite false 7036874417766400 (-46))
    by (vm_compute; reflexivity).
  split; [|split; [|split]].
  - destruct (close c2) as [s2| | |]; try discriminate Hz.
    destruct (close c1) as [s1|s1| |s1 m1 e1]; destruct s2;
      try destruct s1; reflexivity.
  - destruct (close c2) as [s2| | |]; try discriminate Hz.
    destruct (close c1) as [s1|s1| |s1 m1 e1]; destruct s2;
      try destruct s1; reflexivity.
  - destruct (close c2) as [s2| | |]; try discriminate Hz.
    destruct (close c1) as [s1|s1| |s1 m1 e1]; destruct s2;
      try destruct s1; reflexivity.
  - intros symbol before rest w Hlong.
    rewrite (metrics_loop_prefix before _ Hlong), metrics_loop_cons.
    rewrite metrics_two_last, display_placement. cbn [snd].
    rewrite replay_replay. reflexivity.
Qed.

Lemma metrics_zero_previous_close_witness :
  exists m, metrics zero_close_frame = inr m /\
    price_change m = S754_infinity false /\
    metrics_loop [("BTC/USDT"%string, sample_frame);
                  ("ETH/USDT"%string, zero_close_frame)] initial_world =
      (inr tt,
       replay (entry_widgets ("BTC/USDT"%string, sample_frame)
               ++ [ st_metric col2 "Ethereum" "$5.0000" "+inf%";
                    st_caption col2 "24h High: $6.0000";
                    st_caption col2 "24h Low: $4.0000" ]) initial_world).
Proof.
  destruct (metrics_zero_previous_close zero_close_frame
              (sample_row 86400000 (F64.of_Z 1) (F64.of_Z 0) (F64.of_Z 0))
              (sample_row 172800000 (F64.of_Z 6) (F64.of_Z 4) (F64.of_Z 5)))
    as (m & Hm & _ & Hc & Hf & Hloop);
    [cbn; lia | reflexivity | reflexivity | reflexivity |].
  exists m. split; [exact Hm|]. split; [exact Hc|].
  pose proof (Hloop "ETH/USDT"%string [("BTC/USDT"%string, sample_frame)] []
                initial_world) as H.
  cbn [app] in H. rewrite H by (repeat constructor; cbn; lia).
  rewrite Hf. vm_compute. reflexivity.
Defined.

(** C3 as stated fails on closes [0, 5]: the computation returns metrics
    whose change is +infinity, shown as "+inf%", and raises nothing. *)
Lemma metrics_zero_previous_close_counterexample :
  (2 <= length zero_close_frame)%nat /\
  column close zero_close_frame = [F64.of_Z 0; F64.of_Z 5] /\
  (exists m, metrics zero_close_frame = inr m /\
             price_change m = S754_infinity false /\
             format_change (price_change m) = "+inf%"%string) /\
  ~ (exists e, metrics zero_close_frame = inl e).
Proof.
  split; [cbn; lia|]. split; [reflexivity|]. split.
  - eexists. split; [vm_compute; reflexivity|]. split; reflexivity.
  - intros (e & He). vm_compute in He. discriminate He.
Qed.

(** ** The chart series *)

Lemma scatter_configured (symbol : string) (df : DataFrame) :
  symbol ∈ symbols ->
  exists tr, scatter symbol df = inr tr /\
    x tr = column timestamp df /\ y tr = column close df.
Proof.
  intros Hin.
  assert (Hcase : symbol = "BTC/USDT"%string \/ symbol = "ETH/USDT"%string
                  \/ symbol = "SOL/USDT"%string).
  { unfold symbols in Hin. repeat (apply elem_of_cons in Hin as [-> | Hin]; auto).
    inversion Hin. }
  destruct Hcase as [-> | [-> | ->]];
    (eexists; split; [reflexivity|]; split; reflexivity).
Qed.

(** C9: for a configured symbol the trace built from a series of [n] candles
    has [n] points; point [i] is (timestamp of candle [i], close of candle
    [i]), nothing is added, dropped or reordered. *)
Theorem scatter_points :
  forall (symbol : string) (df : DataFrame),
    symbol ∈ symbols ->
    exists tr, scatter symbol df = inr tr /\
      length (x tr) = length df /\ length (y tr) = length df /\
      forall i : nat,
        x tr !! i = timestamp <$> df !! i /\ y tr !! i = close <$> df !! i.
Proof.
  intros symbol df Hin.
  destruct (scatter_configured symbol df Hin) as (tr & Htr & Hx & Hy).
  exists tr. split; [exact Htr|]. rewrite Hx, Hy. unfold column.
  rewrite !length_map. split; [reflexivity|]. split; [reflexivity|].
  intros i. rewrite !list_lookup_fmap. split; reflexivity.
Qed.

Lemma scatter_points_witness :
  exists tr, scatter "ETH/USDT" sample_frame = inr tr /\
    length (x tr) = 3%nat /\ length (y tr) = 3%nat /\
    forall i : nat,
      x tr !! i = timestamp <$> sample_frame !! i /\
      y tr !! i = close <$> sample_frame !! i.
Proof.
  apply (scatter_points "ETH/USDT" sample_frame).
  apply list_elem_of_further, list_elem_of_here.
Defined.

(** ** The display of one symbol *)

(** C10: a symbol other than 'BTC/USDT' and 'ETH/USDT' is never rejected: its
    widgets go to the third column under the label "Solana", and the metrics
    loop carries on with the remaining entries. *)
Theorem display_other_symbol_as_solana :
  forall (symbol : string) (m : Metrics) (w : World),
    symbol <> "BTC/USDT"%string ->
    symbol <> "ETH/USDT"%string ->
    display symbol m w = (inr tt, replay (widgets col3 "Solana" m) w) /\
    forall (df : DataFrame) (rest : Dict.t DataFrame),
      metrics df = inr m ->
      metrics_loop ((symbol, df) :: rest) w =
        metrics_loop rest (replay (widgets col3 "Solana" m) w).
Proof.
  intros symbol m w Hb He.
  assert (Hd : display symbol m w = (inr tt, replay (widgets col3 "Solana" m) w)).
  { unfold display.
    apply String.eqb_neq in Hb, He. rewrite Hb, He. apply show_spec. }
  split; [exact Hd|].
  intros df rest Hm. rewrite metrics_loop_cons, Hm, Hd. reflexivity.
Qed.

Lemma display_other_symbol_as_solana_witness :
  ui (snd (display "DOGE/USDT"
             {| current_price := F64.of_Z 2000; price_change := F64.of_Z 10;
                daily_high := F64.of_Z 2100; daily_low := F64.dyadic 1 (-3) |}
             initial_world))
  = [ st_metric col3 "Solana" "$2,000.00" "+10.00%";
      st_caption col3 "24h High: $2,100.00";
      st_caption col3 "24h Low: $0.1250" ].
Proof.
  rewrite (proj1 (display_other_symbol_as_solana "DOGE/USDT"
                    {| current_price := F64.of_Z 2000;
                       price_change := F64.of_Z 10;
                       daily_high := F64.of_Z 2100;
                       daily_low := F64.dyadic 1 (-3) |}
                    initial_world
                    ltac:(discriminate) ltac:(discriminate))).
  vm_compute. reflexivity.
Defined.

(** ** The cached fetch *)

(** Evaluates, in [H], the frame made from a concrete answer. *)
Ltac frame_of_answer H :=
  match type of H with
  | context [?a ≫= make_frame] =>
      let v := eval vm_compute in (a ≫= make_frame) in
      change (a ≫= make_frame) with v in H; cbv beta iota in H
  end.

Section CachedFetch.

Variable exchange : nat -> Key -> Res (list OHLCV).

Lemma body_spec (k : Key) (w : World) :
  fetch_crypto_data_body exchange k w =
    match exchange (length (calls w)) k ≫= make_frame with
    | inr df => (inr (Some df), request k w)
    | inl e => (inr None, replay [st_error (error_text k.1.1 e)] (request k w))
    end.
Proof.
  destruct k as [[symbol timeframe] limit].
  unfold fetch_crypto_data_body, try_except, fetch_ohlcv, lift.
  unfold mbind at 1 2, M_bind.
  destruct (exchange _ _) as [e|rows]; [reflexivity|].
  change (inr rows ≫= make_frame) with (make_frame rows).
  destruct (make_frame rows); reflexivity.
Qed.

Lemma fetch_hit (symbol timeframe : string) (limit : Z) (w : World)
    (e : CacheEntry) :
  cache_read w (symbol, timeframe, limit) = Some e ->
  fetch_crypto_data exchange symbol timeframe limit w =
    (inr (cached_value e), replay (cached_elements e) w).
Proof.
  intros H. unfold fetch_crypto_data, cache_data. now rewrite H.
Qed.

Lemma fetch_miss (symbol timeframe : string) (limit : Z) (w : World) :
  let k := (symbol, timeframe, limit) in
  cache_read w k = None ->
  fetch_crypto_data exchange symbol timeframe limit w =
    match exchange (length (calls w)) k ≫= make_frame with
    | inr df =>
        (inr (Some df),
         cache_write k {| cached_value := Some df;
                          cached_elements := [];
                          stored_at := clock w |} (request k w))
    | inl e =>
        (inr None,
         cache_write k {| cached_value := None;
                          cached_elements := [st_error (error_text k.1.1 e)];
                          stored_at := clock w |}
           (replay [st_error (error_text k.1.1 e)] (request k w)))
    end.
Proof.
  intros k H. unfold fetch_crypto_data, cache_data. fold k. rewrite H.
  rewrite body_spec.
  destruct (exchange _ _ ≫= make_frame) as [e|df]; cbn [replay request ui clock].
  - now rewrite drop_app_length.
  - replace (drop (length (ui w)) (ui w)) with (@nil Element); [reflexivity|].
    symmetry. apply drop_all.
Qed.

Lemma fetch_failed (symbol timeframe : string) (limit : Z) (w w1 : World)
    (err : exn) (r : option DataFrame) :
  cache_read w (symbol, timeframe, limit) = None ->
  exchange (length (calls w)) (symbol, timeframe, limit) = inl err ->
  fetch_crypto_data exchange symbol timeframe limit w = (inr r, w1) ->
  r = None /\ ui w1 = ui w ++ [st_error (error_text symbol err)].
Proof.
  intros Hmiss Herr H.
  rewrite (fetch_miss symbol timeframe limit w Hmiss), Herr in H.
  change (inl err ≫= make_frame) with (@inl exn DataFrame err) in H.
  cbv beta iota in H. injection H as <- <-. split; reflexivity.
Qed.

Lemma cache_read_fresh (w : World) (k : Key) (e : CacheEntry) :
  cache w !! k = Some e -> clock w < stored_at e + ttl ->
  cache_read w k = Some e.
Proof.
  intros H Hc. unfold cache_read. rewrite H.
  apply Z.ltb_lt in Hc. now rewrite Hc.
Qed.

Lemma cache_read_stale (w : World) (k : Key) (e : CacheEntry) :
  cache w !! k = Some e -> stored_at e + ttl <= clock w ->
  cache_read w k = None.
Proof.
  intros H Hc. unfold cache_read. rewrite H.
  apply Z.ltb_ge in Hc. now rewrite Hc.
Qed.

Lemma cache_read_Some (w : World) (k : Key) (e : CacheEntry) :
  cache_read w k = Some e -> cache w !! k = Some e.
Proof.
  unfold cache_read. destruct (cache w !! k) as [e'|]; [|discriminate].
  destruct (clock w <? stored_at e' + ttl); congruence.
Qed.

(** The cached function always returns, and sends at most one request. *)
Lemma fetch_returns (symbol timeframe : string) (limit : Z) (w : World) :
  let k := (symbol, timeframe, limit) in
  exists r w1 e,
    fetch_crypto_data exchange symbol timeframe limit w = (inr r, w1) /\
    cache w1 !! k = Some e /\ cached_value e = r /\
    (calls w1 = calls w \/ calls w1 = calls w ++ [k]).
Proof.
  intros k. destruct (cache_read w k) as [e|] eqn:Hr.
  - exists (cached_value e), (replay (cached_elements e) w), e.
    split; [now apply fetch_hit|]. split; [now apply cache_read_Some|].
    split; [reflexivity | now left].
  - pose proof (fetch_miss symbol timeframe limit w Hr) as H. fold k in H.
    destruct (exchange (length (calls w)) k ≫= make_frame) as [err|df];
      do 3 eexists; (split; [exact H|]); cbn [cache cache_write calls];
      (split; [apply lookup_insert_eq|]); (split; [reflexivity | now right]).
Qed.

(** C4: the call returns a value that is then in the cache under the key;
    every later call made while that entry is in place and less than 300
    seconds old returns the same value and sends nothing to the exchange,
    so the two calls together send at most one request. *)
Theorem fetch_twice_within_ttl :
  forall (symbol timeframe : string) (limit : Z) (w : World),
    let k := (symbol, timeframe, limit) in
    exists r w1 e,
      fetch_crypto_data exchange symbol timeframe limit w = (inr r, w1) /\
      cache w1 !! k = Some e /\ cached_value e = r /\
      (length (calls w1) <= length (calls w) + 1)%nat /\
      forall w1' : World,
        cache w1' !! k = Some e ->
        clock w1' - stored_at e < ttl ->
        exists w2,
          fetch_crypto_data exchange symbol timeframe limit w1' = (inr r, w2) /\
          calls w2 = calls w1' /\ cache w2 = cache w1'.
Proof.
  intros symbol timeframe limit w k.
  destruct (fetch_returns symbol timeframe limit w) as (r & w1 & e & H1 & Hc & Hv & Hn).
  exists r, w1, e. repeat (split; [assumption|]). split.
  - destruct Hn as [-> | ->]; [lia | rewrite length_app; cbn; lia].
  - intros w1' Hc' Hage.
    exists (replay (cached_elements e) w1').
    split; [|split; reflexivity].
    rewrite <- Hv. apply fetch_hit. apply cache_read_fresh; [exact Hc' | lia].
Qed.

(** C1 (as the code behaves): when the request fails the function shows
    the error and returns [None], and that [None] is stored like any other
    return value: calls within the next 300 seconds return it without
    asking the exchange again; the request is sent again only once the
    entry is 300 seconds old or the cache has been cleared. *)
Theorem failed_fetch_is_cached :
  forall (symbol timeframe : string) (limit : Z) (w : World) (err : exn),
    let k := (symbol, timeframe, limit) in
    cache_read w k = None ->
    exchange (length (calls w)) k = inl err ->
    exists w1 e,
      fetch_crypto_data exchange symbol timeframe limit w = (inr None, w1) /\
      calls w1 = calls w ++ [k] /\
      ui w1 = ui w ++ [st_error (error_text k.1.1 err)] /\
      cache w1 !! k = Some e /\ cached_value e = None /\
      stored_at e = clock w /\
      (forall dt, 0 <= dt < ttl ->
         exists w2,
           fetch_crypto_data exchange symbol timeframe limit (advance dt w1)
             = (inr None, w2) /\ calls w2 = calls w1) /\
      (forall dt, ttl <= dt ->
         exists r w2,
           fetch_crypto_data exchange symbol timeframe limit (advance dt w1)
             = (inr r, w2) /\ calls w2 = calls w1 ++ [k]) /\
      (exists r w2,
         (cache_clear;; fetch_crypto_data exchange symbol timeframe limit) w1
           = (inr r, w2) /\ calls w2 = calls w1 ++ [k]).
Proof.
  intros symbol timeframe limit w err k Hmiss Herr.
  pose proof (fetch_miss symbol timeframe limit w Hmiss) as H. fold k in H.
  rewrite Herr in H.
  change (inl err ≫= make_frame) with (@inl exn DataFrame err) in H.
  eexists; eexists. split; [exact H|].
  cbn [calls ui cache cache_write replay request clock cached_value stored_at].
  split; [reflexivity|]. split; [reflexivity|].
  split; [apply lookup_insert_eq|]. split; [reflexivity|]. split; [reflexivity|].
  split; [|split].
  - intros dt Hdt. eexists. split.
    + change (@inr exn (option DataFrame) None) with
        (@inr exn (option DataFrame)
           (cached_value {| cached_value := None;
                            cached_elements := [st_error (error_text k.1.1 err)];
                            stored_at := clock w |})).
      apply fetch_hit. apply cache_read_fresh.
      * cbn. apply lookup_insert_eq.
      * cbn. lia.
    + reflexivity.
  - intros dt Hdt.
    match goal with |- context [advance dt ?w1] => set (w1' := advance dt w1) end.
    assert (Hstale : cache_read w1' k = None).
    { eapply cache_read_stale; [cbn; apply lookup_insert_eq | cbn; lia]. }
    pose proof (fetch_miss symbol timeframe limit w1' Hstale) as H2. fold k in H2.
    destruct (exchange (length (calls w1')) k ≫= make_frame);
      do 2 eexists; (split; [exact H2 | reflexivity]).
  - unfold mbind, M_bind, cache_clear.
    match goal with |- context [fetch_crypto_data _ _ _ _ ?w1] => set (w1' := w1) end.
    assert (Hnone : cache_read w1' k = None).
    { unfold cache_read. cbn. now rewrite lookup_empty. }
    pose proof (fetch_miss symbol timeframe limit w1' Hnone) as H2. fold k in H2.
    destruct (exchange (length (calls w1')) k ≫= make_frame);
      do 2 eexists; (split; [exact H2 | reflexivity]).
Qed.

End CachedFetch.

Lemma fetch_twice_within_ttl_witness :
  exists r w1 w2,
    fetch_crypto_data steady_exchange "SOL/USDT" "1d" 7 initial_world = (inr r, w1) /\
    fetch_crypto_data steady_exchange "SOL/USDT" "1d" 7 (advance 299 w1) = (inr r, w2) /\
    calls w2 = [("SOL/USDT", "1d", 7)]%string.
Proof.
  destruct (fetch_twice_within_ttl steady_exchange "SOL/USDT" "1d" 7 initial_world)
    as (r & w1 & e & H1 & Hc & Hv & Hn & H2).
  pose proof (fetch_miss steady_exchange "SOL/USDT" "1d" 7 initial_world eq_refl) as Hm.
  frame_of_answer Hm.
  rewrite Hm in H1. injection H1 as Hr Hw. subst r w1.
  cbn [cache cache_write] in Hc. rewrite lookup_insert_eq in Hc. injection Hc as <-.
  match type of Hm with
  | _ = (_, ?W) => destruct (H2 (advance 299 W)) as (w2 & Hf & Hcalls & _)
  end.
  - cbn. apply lookup_insert_eq.
  - cbn. unfold ttl. lia.
  - do 3 eexists. split; [exact Hm|]. split; [exact Hf|]. exact Hcalls.
Defined.

Lemma failed_fetch_is_cached_witness :
  exists w1,
    fetch_crypto_data flaky_exchange "BTC/USDT" "1d" 30 initial_world
      = (inr None, w1) /\
    calls w1 = [("BTC/USDT", "1d", 30)]%string /\
    (exists w2,
       fetch_crypto_data flaky_exchange "BTC/USDT" "1d" 30 (advance 299 w1)
         = (inr None, w2) /\ calls w2 = calls w1) /\
    (exists r w2,
       fetch_crypto_data flaky_exchange "BTC/USDT" "1d" 30 (advance 300 w1)
         = (inr r, w2) /\
       calls w2 = calls w1 ++ [("BTC/USDT", "1d", 30)]%string).
Proof.
  destruct (failed_fetch_is_cached flaky_exchange "BTC/USDT" "1d" 30 initial_world
              (Exn "RequestTimeout" "binance GET request timed out")
              eq_refl eq_refl)
    as (w1 & e & H1 & Hcalls & _ & _ & _ & _ & Hin & Hout & _).
  exists w1. split; [exact H1|]. split; [exact Hcalls|]. split.
  - apply (Hin 299). unfold ttl. lia.
  - apply (Hout 300). unfold ttl. lia.
Defined.

(** C1 as stated fails: after a failed request for ('BTC/USDT', '1d', 30)
    the cache holds an entry for the key, and the call that follows returns
    [None] from it without sending a second request, although the exchange
    would have answered. *)
Lemma failed_fetch_retry_counterexample :
  let k : Key := ("BTC/USDT", "1d", 30)%string in
  exists w1 w2,
    cache_read initial_world k = None /\
    flaky_exchange 0 k = inl (Exn "RequestTimeout" "binance GET request timed out") /\
    fetch_crypto_data flaky_exchange "BTC/USDT" "1d" 30 initial_world
      = (inr None, w1) /\
    cache w1 !! k <> None /\
    (exists rows, flaky_exchange (length (calls w1)) k = inr rows) /\
    fetch_crypto_data flaky_exchange "BTC/USDT" "1d" 30 w1 = (inr None, w2) /\
    calls w2 = calls w1 /\
    calls w2 <> calls w1 ++ [k].
Proof.
  intros k.
  pose proof (fetch_miss flaky_exchange "BTC/USDT" "1d" 30 initial_world eq_refl) as Hm.
  frame_of_answer Hm.
  match type of Hm with
  | _ = (_, ?W) =>
      exists W, (replay [st_error (error_text "BTC/USDT"
                   (Exn "RequestTimeout" "binance GET request timed out"))] W)
  end.
  split; [reflexivity|]. split; [reflexivity|]. split; [exact Hm|].
  split; [cbn; rewrite lookup_insert_eq; discriminate|].
  split; [eexists; reflexivity|].
  split.
  - change (@inr exn (option DataFrame) None) with
      (@inr exn (option DataFrame)
         (cached_value
            {| cached_value := None;
               cached_elements :=
                 [st_error (error_text "BTC/USDT"
                    (Exn "RequestTimeout" "binance GET request timed out"))];
               stored_at := 0 |})).
    apply fetch_hit. apply cache_read_fresh.
    + cbn. apply lookup_insert_eq.
    + cbn. unfold ttl. lia.
  - split; [reflexivity|]. cbn. discriminate.
Qed.

(** ** One failed symbol and the others *)

Lemma scatter_plots (symbol : string) (df : DataFrame) :
  symbol ∈ symbols ->
  exists tr, scatter symbol df = inr tr /\ plots (symbol, df) tr.
Proof.
  intros Hin.
  assert (Hcase : symbol = "BTC/USDT"%string \/ symbol = "ETH/USDT"%string
                  \/ symbol = "SOL/USDT"%string).
  { unfold symbols in Hin. repeat (apply elem_of_cons in Hin as [-> | Hin]; auto).
    inversion Hin. }
  destruct Hcase as [-> | [-> | ->]];
    (eexists; split; [reflexivity|]; unfold plots; cbn [fst snd x y name
       line_color fill fillcolor]; repeat split; reflexivity).
Qed.

Lemma add_traces_plots (items : Dict.t DataFrame) :
  Forall (fun item => item.1 ∈ symbols) items ->
  exists trs, Forall2 plots items trs /\
    forall fig, add_traces items fig = inr (fig ++ trs).
Proof.
  induction 1 as [|[s df] items Hs _ (trs & Htrs & IH)].
  - exists []. split; [constructor|]. intros fig. cbn. now rewrite app_nil_r.
  - destruct (scatter_plots s df Hs) as (tr & Htr & Hp).
    exists (tr :: trs). split; [constructor; [exact Hp | exact Htrs]|].
    intros fig. cbn [add_traces]. rewrite Htr. cbn. rewrite IH.
    now rewrite <- app_assoc.
Qed.

Lemma metrics_loop_long (items : Dict.t DataFrame) :
  Forall long_enough items ->
  forall w, metrics_loop items w =
              (inr tt, replay (concat (map entry_widgets items)) w).
Proof.
  intros Hlong w.
  rewrite <- (app_nil_r items) at 1.
  now rewrite (metrics_loop_prefix items [] Hlong).
Qed.

Lemma metrics_loop_short (before after : Dict.t DataFrame) (symbol : string)
    (df : DataFrame) :
  Forall long_enough before -> (length df < 2)%nat ->
  forall w, metrics_loop (before ++ (symbol, df) :: after) w =
              (inl IndexError, replay (concat (map entry_widgets before)) w).
Proof.
  intros Hlong Hshort w.
  rewrite (metrics_loop_prefix before _ Hlong), metrics_loop_cons.
  now rewrite (metrics_short df Hshort).
Qed.

Lemma fetched_configured (r1 r2 r3 : option DataFrame) :
  Forall (fun item => item.1 ∈ symbols)
    (fetched [("BTC/USDT"%string, r1); ("ETH/USDT"%string, r2);
              ("SOL/USDT"%string, r3)]).
Proof.
  destruct r1, r2, r3; cbn; repeat constructor.
Qed.

Lemma render_traced (items : Dict.t DataFrame) (fig : Figure) (w : World) :
  add_traces items [] = inr fig ->
  render items w =
    metrics_loop items
      (replay [plotly_chart fig; st_header "📊 Market Overview"] w).
Proof.
  intros H. unfold render, lift, emit, mbind, M_bind. rewrite H.
  now rewrite replay_replay.
Qed.

Section FetchLoop.

Variable exchange : nat -> Key -> Res (list OHLCV).

Lemma fetch_all_three (days : Z) (w w1 w2 w3 : World)
    (r1 r2 r3 : option DataFrame) :
  fetch_crypto_data exchange "BTC/USDT" "1d" days w = (inr r1, w1) ->
  fetch_crypto_data exchange "ETH/USDT" "1d" days w1 = (inr r2, w2) ->
  fetch_crypto_data exchange "SOL/USDT" "1d" days w2 = (inr r3, w3) ->
  fetch_all exchange symbols days [] w =
    (inr (fetched [("BTC/USDT"%string, r1); ("ETH/USDT"%string, r2);
                   ("SOL/USDT"%string, r3)]), w3).
Proof.
  intros H1 H2 H3.
  unfold symbols. cbn [fetch_all].
  unfold mbind at 1, M_bind at 1. rewrite H1.
  unfold mbind at 1, M_bind at 1. rewrite H2.
  unfold mbind at 1, M_bind at 1. rewrite H3.
  unfold mret, M_ret. destruct r1, r2, r3; reflexivity.
Qed.

(** C8 (as the code behaves): each call of the cached fetch returns
    normally, with a frame or with [None]; a call that finds nothing fresh in
    the cache and whose request fails shows the error naming the symbol and
    returns [None]; the fetch loop leaves the symbols that gave [None] out
    of [crypto_data] and keeps the others in order.  The figure then has one
    trace per fetched symbol, plotting its timestamps and closes.  When every
    fetched series has at least two candles the page gets the chart, the
    header and the widgets of every fetched symbol, and the rendering ends
    normally; otherwise it gets the chart, the header and the widgets of the
    symbols before the first too-short series, and the rendering ends there
    with [IndexError]. *)
Theorem fetch_failure_skips_symbol :
  forall (days : Z) (w : World),
  exists r1 r2 r3 w1 w2 w3,
    fetch_crypto_data exchange "BTC/USDT" "1d" days w = (inr r1, w1) /\
    fetch_crypto_data exchange "ETH/USDT" "1d" days w1 = (inr r2, w2) /\
    fetch_crypto_data exchange "SOL/USDT" "1d" days w2 = (inr r3, w3) /\
    (forall err,
       cache_read w ("BTC/USDT", "1d", days)%string = None ->
       exchange (length (calls w)) ("BTC/USDT", "1d", days)%string = inl err ->
       r1 = None /\ ui w1 = ui w ++ [st_error (error_text "BTC/USDT" err)]) /\
    (forall err,
       cache_read w1 ("ETH/USDT", "1d", days)%string = None ->
       exchange (length (calls w1)) ("ETH/USDT", "1d", days)%string = inl err ->
       r2 = None /\ ui w2 = ui w1 ++ [st_error (error_text "ETH/USDT" err)]) /\
    (forall err,
       cache_read w2 ("SOL/USDT", "1d", days)%string = None ->
       exchange (length (calls w2)) ("SOL/USDT", "1d", days)%string = inl err ->
       r3 = None /\ ui w3 = ui w2 ++ [st_error (error_text "SOL/USDT" err)]) /\
    let ok := fetched [("BTC/USDT"%string, r1); ("ETH/USDT"%string, r2);
                       ("SOL/USDT"%string, r3)] in
    fetch_all exchange symbols days [] w = (inr ok, w3) /\
    exists fig,
      Forall2 plots ok fig /\
      (Forall long_enough ok ->
       render ok w3 =
         (inr tt,
          replay (plotly_chart fig :: st_header "📊 Market Overview"
                    :: concat (map entry_widgets ok)) w3)) /\
      (forall (before after : Dict.t DataFrame) (symbol : string)
              (df : DataFrame),
         ok = before ++ (symbol, df) :: after ->
         Forall long_enough before ->
         (length df < 2)%nat ->
         render ok w3 =
           (inl IndexError,
            replay (plotly_chart fig :: st_header "📊 Market Overview"
                      :: concat (map entry_widgets before)) w3)).
Proof.
  intros days w.
  destruct (fetch_returns exchange "BTC/USDT" "1d" days w)
    as (r1 & w1 & _ & H1 & _).
  destruct (fetch_returns exchange "ETH/USDT" "1d" days w1)
    as (r2 & w2 & _ & H2 & _).
  destruct (fetch_returns exchange "SOL/USDT" "1d" days w2)
    as (r3 & w3 & _ & H3 & _).
  exists r1, r2, r3, w1, w2, w3. repeat (split; [assumption|]).
  split; [intros err Hm He; exact (fetch_failed exchange _ _ _ _ _ _ _ Hm He H1)|].
  split; [intros err Hm He; exact (fetch_failed exchange _ _ _ _ _ _ _ Hm He H2)|].
  split; [intros err Hm He; exact (fetch_failed exchange _ _ _ _ _ _ _ Hm He H3)|].
  intros ok.
  split; [exact (fetch_all_three days w w1 w2 w3 r1 r2 r3 H1 H2 H3)|].
  destruct (add_traces_plots ok (fetched_configured r1 r2 r3))
    as (fig & Hfig & Hadd).
  exists fig. split; [exact Hfig|]. split.
  - intros Hlong. rewrite (render_traced ok fig w3 (Hadd [])).
    now rewrite (metrics_loop_long ok Hlong), replay_replay.
  - intros before after symbol df Hok Hlong Hshort.
    rewrite (render_traced ok fig w3 (Hadd [])), Hok.
    now rewrite (metrics_loop_short before after symbol df Hlong Hshort),
      replay_replay.
Qed.

End FetchLoop.

Lemma fetch_failure_skips_symbol_witness :
  (exists ok w3 fig,
     fetch_all flaky_exchange symbols 30 [] initial_world = (inr ok, w3) /\
     map fst ok = ["ETH/USDT"; "SOL/USDT"]%string /\
     take 1 (ui w3) =
       [st_error "Error fetching data for BTC/USDT: binance GET request timed out"] /\
     render ok w3 =
       (inr tt,
        replay (plotly_chart fig :: st_header "📊 Market Overview"
                  :: concat (map entry_widgets ok)) w3))
  /\ (exists ok w3 fig,
        fetch_all short_exchange symbols 30 [] initial_world = (inr ok, w3) /\
        map fst ok = ["ETH/USDT"; "SOL/USDT"]%string /\
        render ok w3 =
          (inl IndexError,
           replay [plotly_chart fig; st_header "📊 Market Overview"] w3)).
Proof.
  split.
  - destruct (fetch_failure_skips_symbol flaky_exchange 30 initial_world)
      as (r1 & r2 & r3 & w1 & w2 & w3 & H1 & H2 & H3 & F1 & _ & _ & Hall & fig
          & _ & Hlong & _).
    destruct (F1 _ eq_refl eq_refl) as [Hr1 Hu1].
    vm_compute in H1. injection H1 as _ Hw1. subst r1 w1.
    vm_compute in H2. injection H2 as Hr2 Hw2. subst r2 w2.
    vm_compute in H3. injection H3 as Hr3 Hw3. subst r3.
    do 3 eexists. split; [exact Hall|]. split; [reflexivity|].
    split; [rewrite <- Hw3; reflexivity|].
    apply Hlong. repeat constructor.
  - destruct (fetch_failure_skips_symbol short_exchange 30 initial_world)
      as (r1 & r2 & r3 & w1 & w2 & w3 & H1 & H2 & H3 & _ & _ & _ & Hall & fig
          & _ & _ & Hshort).
    vm_compute in H1. injection H1 as Hr1 Hw1. subst r1 w1.
    vm_compute in H2. injection H2 as Hr2 Hw2. subst r2 w2.
    vm_compute in H3. injection H3 as Hr3 Hw3. subst r3.
    do 3 eexists. split; [exact Hall|]. split; [reflexivity|].
    eapply (Hshort [] _ "ETH/USDT"%string); [reflexivity | constructor | cbn; lia].
Defined.

(** C8 as stated fails: the request for BTC/USDT fails, ETH/USDT and
    SOL/USDT are fetched, but the series of ETH/USDT has a single candle; the
    rendering ends with [IndexError] and no metric is on the page, not even
    that of SOL/USDT, whose series has its two candles. *)
Lemma fetch_failure_counterexample :
  exists ok w3 page,
    short_exchange 0 ("BTC/USDT", "1d", 30)%string
      = inl (Exn "RequestTimeout" "binance GET request timed out") /\
    fetch_all short_exchange symbols 30 [] initial_world = (inr ok, w3) /\
    map (fun item => (item.1, length item.2)) ok
      = [("ETH/USDT"%string, 1%nat); ("SOL/USDT"%string, 2%nat)] /\
    render ok w3 = (inl IndexError, page) /\
    Forall (fun e => forall col label value delta,
                       e <> st_metric col label value delta) (ui page).
Proof.
  pose (run := fetch_all short_exchange symbols 30 [] initial_world).
  pose (ok := match run.1 with inr d => d | inl _ => [] end).
  exists ok, run.2, (render ok run.2).2.
  split; [reflexivity|].
  split; [vm_compute; reflexivity|].
  split; [vm_compute; reflexivity|].
  split; [vm_compute; reflexivity|].
  vm_compute. repeat constructor; intros; discriminate.
Qed.

(** ** Decimal digits *)

Module DigitFacts.

Import PyFormat Reading.

Lemma digit_char_spec (k : Z) :
  0 <= k <= 9 -> is_digit (digit_char k) = true /\ digit_value (digit_char k) = k.
Proof.
  intros H.
  assert (Hk : k = 0 \/ k = 1 \/ k = 2 \/ k = 3 \/ k = 4 \/ k = 5 \/ k = 6
               \/ k = 7 \/ k = 8 \/ k = 9) by lia.
  repeat (destruct Hk as [-> | Hk]; [split; reflexivity|]).
  subst k. split; reflexivity.
Qed.

Lemma is_digit_value (c : ascii) :
  is_digit c = true -> 0 <= digit_value c <= 9.
Proof.
  unfold is_digit, digit_value. intros H.
  apply andb_true_iff in H as [H1 H2].
  apply Nat.leb_le in H1, H2. lia.
Qed.

Lemma fold_value (l : list ascii) (a : Z) :
  fold_left (fun acc c => 10 * acc + digit_value c) l a =
    a * 10 ^ Z.of_nat (length l) + value l.
Proof.
  unfold value. revert a. induction l as [|c l IH]; intros a.
  - cbn. lia.
  - cbn [fold_left length]. rewrite IH, (IH (10 * 0 + digit_value c)).
    rewrite Nat2Z.inj_succ, Z.pow_succ_r by lia. ring.
Qed.

Lemma value_app (l1 l2 : list ascii) :
  value (l1 ++ l2) = value l1 * 10 ^ Z.of_nat (length l2) + value l2.
Proof.
  unfold value at 1. rewrite fold_left_app. fold (value l1). apply fold_value.
Qed.

Lemma value_bounds (l : list ascii) :
  Forall (fun c => is_digit c = true) l ->
  0 <= value l < 10 ^ Z.of_nat (length l).
Proof.
  induction l as [|c l IH] using rev_ind; intros H.
  - cbn. lia.
  - apply Forall_app in H as [Hl Hc]. inversion Hc as [|? ? Hd _]; subst.
    specialize (IH Hl). apply is_digit_value in Hd.
    rewrite value_app, length_app. cbn [length].
    replace (value [c]) with (digit_value c) by (unfold value; cbn; lia).
    rewrite Nat2Z.inj_add, Z.pow_add_r by lia.
    change (10 ^ Z.of_nat 1) with 10. lia.
Qed.

Lemma value_zeros (k : nat) : value (repeat "0"%char k) = 0.
Proof.
  induction k as [|k IH]; [reflexivity|].
  change (repeat "0"%char (S k)) with (["0"%char] ++ repeat "0"%char k).
  rewrite value_app, IH. reflexivity.
Qed.

Lemma to_digits_S (fuel : nat) (n : Z) (acc : list ascii) :
  to_digits (S fuel) n acc =
    if n <? 10 then digit_char (n mod 10) :: acc
    else to_digits fuel (n / 10) (digit_char (n mod 10) :: acc).
Proof. reflexivity. Qed.

Lemma to_digits_spec (fuel : nat) :
  forall (n : Z) (acc : list ascii),
    0 <= n < 10 ^ Z.of_nat (S fuel) ->
    exists ds, to_digits (S fuel) n acc = ds ++ acc /\
      Forall (fun c => is_digit c = true) ds /\ value ds = n /\ ds <> [].
Proof.
  induction fuel as [|fuel IH]; intros n acc Hn.
  - change (10 ^ Z.of_nat 1) with 10 in Hn.
    rewrite to_digits_S. replace (n <? 10) with true by (symmetry; apply Z.ltb_lt; lia).
    exists [digit_char (n mod 10)].
    rewrite Z.mod_small by lia.
    destruct (digit_char_spec n ltac:(lia)) as [Hd Hv].
    split; [reflexivity|]. split; [repeat constructor; exact Hd|].
    split; [unfold value; cbn; lia | discriminate].
  - rewrite to_digits_S.
    assert (Hm : 0 <= n mod 10 <= 9) by (pose proof (Z.mod_pos_bound n 10); lia).
    destruct (digit_char_spec (n mod 10) Hm) as [Hd Hv].
    destruct (n <? 10) eqn:Hlt.
    + apply Z.ltb_lt in Hlt. exists [digit_char (n mod 10)].
      split; [reflexivity|]. split; [repeat constructor; exact Hd|].
      split; [|discriminate].
      unfold value; cbn. rewrite Hv. rewrite Z.mod_small; lia.
    + apply Z.ltb_ge in Hlt.
      destruct (IH (n / 10) (digit_char (n mod 10) :: acc)) as (ds & E & Hds & Hval & Hne).
      { split; [apply Z.div_pos; lia|].
        apply Z.div_lt_upper_bound; [lia|].
        rewrite (Nat2Z.inj_succ (S fuel)), Z.pow_succ_r in Hn by lia. lia. }
      exists (ds ++ [digit_char (n mod 10)]).
      split; [rewrite E, <- app_assoc; reflexivity|].
      split; [apply Forall_app; split; [exact Hds | repeat constructor; exact Hd]|].
      split; [|intros Habs; apply app_eq_nil in Habs as [_ Habs]; discriminate].
      rewrite value_app, Hval. cbn [length].
      replace (value [digit_char (n mod 10)]) with (n mod 10)
        by (unfold value; cbn; lia).
      change (10 ^ Z.of_nat 1) with 10.
      pose proof (Z.div_mod n 10). lia.
Qed.

Lemma enough_fuel (n : Z) : 0 <= n -> n < 10 ^ Z.of_nat (S (Z.to_nat (Z.log2 n))).
Proof.
  intros Hn. rewrite Nat2Z.inj_succ, Z2Nat.id by apply Z.log2_nonneg.
  destruct (Z.eq_dec n 0) as [->|Hz]; [cbn; lia|].
  assert (n < 2 ^ Z.succ (Z.log2 n)) by (apply Z.log2_spec; lia).
  assert (2 ^ Z.succ (Z.log2 n) <= 10 ^ Z.succ (Z.log2 n)).
  { apply Z.pow_le_mono_l. lia. }
  lia.
Qed.

Lemma decimal_spec (n : Z) :
  0 <= n ->
  Forall (fun c => is_digit c = true) (decimal n) /\ value (decimal n) = n /\
  decimal n <> [].
Proof.
  intros Hn. unfold decimal.
  destruct (to_digits_spec (Z.to_nat (Z.log2 n)) n [])
    as (ds & E & Hds & Hv & Hne); [split; [exact Hn | apply enough_fuel, Hn]|].
  rewrite E, app_nil_r. auto.
Qed.

End DigitFacts.

(** ** Grouping and fixed-point layout *)

Module LayoutFacts.

Import PyFormat Reading DigitFacts.

Lemma join_snoc (sep : ascii) (gs : list (list ascii)) (g : list ascii) :
  gs <> [] -> join sep (gs ++ [g]) = join sep gs ++ sep :: g.
Proof.
  induction gs as [|g0 gs IH]; intros Hne; [contradiction|].
  destruct gs as [|g1 gs]; [reflexivity|].
  change (join sep ((g0 :: g1 :: gs) ++ [g]))
    with (g0 ++ sep :: join sep ((g1 :: gs) ++ [g])).
  rewrite IH by discriminate.
  change (join sep (g0 :: g1 :: gs)) with (g0 ++ sep :: join sep (g1 :: gs)).
  now rewrite <- app_assoc.
Qed.

Lemma thousands_snoc (gs : list (list ascii)) (g : list ascii) :
  thousands gs -> length g = 3%nat -> thousands (gs ++ [g]).
Proof.
  destruct gs as [|g0 gs]; [contradiction|].
  intros [H0 Hrest] Hg. split; [exact H0|].
  apply Forall_app. split; [exact Hrest | repeat constructor; exact Hg].
Qed.

Lemma group3_rev_spec (n : nat) :
  forall r : list ascii,
    (length r <= n)%nat -> r <> [] ->
    exists gs, rev (group3_rev r) = join ","%char gs /\
      concat gs = rev r /\ thousands gs.
Proof.
  induction n as [n IH] using lt_wf_ind. intros r Hlen Hne.
  destruct r as [|a [|b [|c [|d rest]]]]; [contradiction | | | |].
  - exists [[a]]. cbn. repeat split; auto.
  - exists [[b; a]]. cbn. repeat split; auto.
  - exists [[c; b; a]]. cbn. repeat split; auto.
  - destruct (IH (length (d :: rest)) ltac:(cbn in *; lia) (d :: rest) (le_n _)
                ltac:(discriminate)) as (gs & Hj & Hc & Ht).
    exists (gs ++ [[c; b; a]]).
    assert (Hgs : gs <> []) by (destruct gs; [contradiction | discriminate]).
    split; [|split].
    + change (group3_rev (a :: b :: c :: d :: rest))
        with (a :: b :: c :: ","%char :: group3_rev (d :: rest)).
      rewrite join_snoc by exact Hgs. rewrite <- Hj.
      change (a :: b :: c :: ","%char :: group3_rev (d :: rest))
        with ([a; b; c; ","%char] ++ group3_rev (d :: rest)).
      rewrite rev_app_distr. reflexivity.
    + rewrite concat_app, Hc. cbn [concat]. rewrite app_nil_r.
      change (a :: b :: c :: d :: rest) with ([a; b; c] ++ d :: rest).
      rewrite (rev_app_distr [a; b; c]). reflexivity.
    + apply thousands_snoc; [exact Ht | reflexivity].
Qed.

Lemma group3_spec (l : list ascii) :
  l <> [] ->
  exists gs, group3 l = join ","%char gs /\ concat gs = l /\ thousands gs.
Proof.
  intros Hne. unfold group3.
  destruct (group3_rev_spec (length (rev l)) (rev l) (le_n _)) as (gs & Hj & Hc & Ht).
  - intros Habs. apply (f_equal (@rev ascii)) in Habs.
    rewrite rev_involutive in Habs. contradiction.
  - exists gs. rewrite rev_involutive in Hc. auto.
Qed.

Lemma thousands_long (gs : list (list ascii)) :
  thousands gs -> (4 <= length (concat gs))%nat -> (2 <= length gs)%nat.
Proof.
  destruct gs as [|g [|g' gs]]; [contradiction | | cbn; lia].
  intros [Hg _]. cbn. rewrite app_nil_r. lia.
Qed.

Lemma zero_pad_spec (k : nat) (l : list ascii) :
  Forall (fun c => is_digit c = true) l ->
  Forall (fun c => is_digit c = true) (zero_pad k l) /\
  value (zero_pad k l) = value l /\
  (k <= length (zero_pad k l))%nat /\ (length l <= length (zero_pad k l))%nat.
Proof.
  intros Hl. unfold zero_pad. split; [|split].
  - apply Forall_app. split; [|exact Hl].
    apply Forall_forall. intros c Hc. apply list_elem_of_In, repeat_spec in Hc.
    now subst c.
  - rewrite value_app, value_zeros. lia.
  - rewrite length_app, repeat_length. lia.
Qed.

(** The layout of [fixed]: sign, integral digits (grouped on demand), a
    point and exactly [places] fractional digits, which together write [n]. *)
Lemma fixed_spec (f : spec) (neg : bool) (n : Z) :
  0 <= n -> places f <> 0%nat ->
  exists ip fp,
    fixed f neg n =
      sign_text f neg ++ (if comma f then group3 ip else ip) ++ "."%char :: fp /\
    ip <> [] /\ length fp = places f /\
    Forall (fun c => is_digit c = true) ip /\
    Forall (fun c => is_digit c = true) fp /\
    value (ip ++ fp) = n.
Proof.
  intros Hn Hp. unfold fixed.
  destruct (decimal_spec n Hn) as (Hd & Hv & _).
  destruct (zero_pad_spec (S (places f)) (decimal n) Hd) as (Hzd & Hzv & Hzl & _).
  set (ds := zero_pad (S (places f)) (decimal n)) in *. clearbody ds.
  set (k := (length ds - places f)%nat).
  exists (firstn k ds), (skipn k ds).
  split; [destruct (places f); [contradiction | reflexivity]|].
  split; [|split; [|split; [|split]]].
  - intros Habs. apply (f_equal (@length ascii)) in Habs.
    rewrite length_take in Habs. cbn [length] in Habs. unfold k in Habs. lia.
  - rewrite length_drop. unfold k. lia.
  - now apply Forall_take.
  - now apply Forall_drop.
  - rewrite take_drop. congruence.
Qed.

End LayoutFacts.

(** ** Rounding and comparison of binary64 numbers *)

Module FloatFacts.

Import PyFormat Reading.

Lemma scaled_round_nearest (m : positive) (e : Z) (d : nat) :
  nearest (scaled_round m e d) m e d.
Proof.
  unfold nearest, scaled_round. cbv zeta.
  set (num := Z.pos m * 10 ^ Z.of_nat d).
  destruct (0 <=? e) eqn:He.
  - apply Z.leb_le in He.
    rewrite (Z.max_l e 0), (Z.max_r (- e) 0) by lia.
    change (2 ^ 0) with 1. split; [lia | intros H; lia].
  - apply Z.leb_gt in He.
    rewrite (Z.max_r e 0), (Z.max_l (- e) 0) by lia.
    change (2 ^ 0) with 1.
    set (den := 2 ^ (- e)).
    assert (Hden : 0 < den) by (apply Z.pow_pos_nonneg; lia).
    pose proof (Z.div_mod num den ltac:(lia)) as Hdm.
    pose proof (Z.mod_pos_bound num den Hden) as Hr.
    set (q := num / den) in *. set (r := num mod den) in *.
    clearbody q r den num.
    destruct (2 * r ?= den) eqn:Hc.
    + apply Z.compare_eq in Hc.
      destruct (Z.even q) eqn:Hq.
      * split; [lia | intros _; exact Hq].
      * replace ((q + 1) * den) with (q * den + den) by ring.
        split; [lia|]. intros _.
        rewrite Z.even_add, Hq. reflexivity.
    + rewrite Z.compare_lt_iff in Hc. split; [lia | intros H; exfalso; lia].
    + rewrite Z.compare_gt_iff in Hc.
      replace ((q + 1) * den) with (q * den + den) by ring.
      split; [lia | intros H; lia].
Qed.

Lemma scaled_round_lower (m : positive) (e : Z) (d : nat) (lo : Z) :
  0 <= lo ->
  (e < 0 -> 2 ^ (- e) * lo <= Z.pos m * 10 ^ Z.of_nat d) ->
  (0 <= e -> lo <= Z.pos m * 10 ^ Z.of_nat d) ->
  lo <= scaled_round m e d.
Proof.
  intros Hlo Hneg Hpos. unfold scaled_round.
  destruct (0 <=? e) eqn:He.
  - apply Z.leb_le in He. specialize (Hpos He).
    assert (1 <= 2 ^ e) by (apply Z.pow_le_mono_r with (b := 0); lia).
    nia.
  - apply Z.leb_gt in He. specialize (Hneg He).
    assert (Hden : 0 < 2 ^ (- e)) by (apply Z.pow_pos_nonneg; lia).
    assert (lo <= Z.pos m * 10 ^ Z.of_nat d / 2 ^ (- e))
      by (apply Z.div_le_lower_bound; assumption).
    destruct (_ ?= _); [destruct (Z.even _)| |]; lia.
Qed.

Lemma digits2_pos_lower (m : positive) :
  2 ^ (Z.pos (digits2_pos m) - 1) <= Z.pos m.
Proof.
  induction m as [m IH|m IH|]; cbn [digits2_pos]; [| |cbn; lia].
  - rewrite Pos2Z.inj_succ.
    replace (Z.succ (Z.pos (digits2_pos m)) - 1)
      with (Z.succ (Z.pos (digits2_pos m) - 1)) by lia.
    rewrite Z.pow_succ_r by lia. lia.
  - rewrite Pos2Z.inj_succ.
    replace (Z.succ (Z.pos (digits2_pos m)) - 1)
      with (Z.succ (Z.pos (digits2_pos m) - 1)) by lia.
    rewrite Z.pow_succ_r by lia. lia.
Qed.

Lemma of_Z_1000 : F64.of_Z 1000 = S754_finite false 8796093022208000 (-43).
Proof. vm_compute. reflexivity. Qed.

(** A valid binary64 number that compares [>= 1000] is a positive finite
    number of at least 1000 hundredths of a thousand. *)
Lemma ge_1000_finite (s : bool) (m : positive) (e : Z) :
  F64.valid (S754_finite s m e) = true ->
  F64.ge (S754_finite s m e) (F64.of_Z 1000) = true ->
  s = false /\ 100000 <= scaled_round m e 2.
Proof.
  unfold F64.ge. rewrite of_Z_1000. unfold F64.valid, valid_binary, bounded.
  intros Hv Hge. apply andb_true_iff in Hv as [Hcanon _].
  unfold canonical_mantissa, fexp, emin, F64.prec, F64.emax in Hcanon.
  apply Z.eqb_eq in Hcanon.
  pose proof (digits2_pos_lower m) as Hdig.
  unfold SFleb, SFcompare in Hge.
  destruct s; [discriminate Hge|]. split; [reflexivity|].
  destruct (-43 ?= e) eqn:Hc.
  - apply Z.compare_eq in Hc. subst e.
    assert (Hm : 8796093022208000 <= Z.pos m).
    { destruct (Pos.compare_cont Eq 8796093022208000 m) eqn:Hcm;
        try discriminate Hge;
        change (Pos.compare_cont Eq 8796093022208000 m)
          with (8796093022208000 ?= m)%positive in Hcm.
      - apply Pos.compare_eq in Hcm. subst m. lia.
      - rewrite Pos.compare_lt_iff in Hcm. lia. }
    apply (scaled_round_lower m (-43) 2 100000); [lia | |lia].
    intros _. change (2 ^ (- -43)) with 8796093022208 .
    change (10 ^ Z.of_nat 2) with 100. lia.
  - rewrite Z.compare_lt_iff in Hc.
    assert (Hd : Z.pos (digits2_pos m) = 53) by lia.
    rewrite Hd in Hdig. change (2 ^ (53 - 1)) with 4503599627370496 in Hdig.
    apply (scaled_round_lower m e 2 100000); [lia | |].
    + intros He. change (10 ^ Z.of_nat 2) with 100.
      assert (2 ^ (- e) <= 2 ^ 42) by (apply Z.pow_le_mono_r; lia).
      change (2 ^ 42) with 4398046511104 in *. lia.
    + intros _. change (10 ^ Z.of_nat 2) with 100. lia.
  - discriminate Hge.
Qed.

Lemma SFcompare_antisym (a b : spec_float) :
  SFcompare b a = option_map CompOpp (SFcompare a b).
Proof.
  destruct a as [sa|sa| |sa ma ea], b as [sb|sb| |sb mb eb];
    try reflexivity;
    try (destruct sa; reflexivity);
    try (destruct sb; reflexivity);
    try (destruct sa, sb; reflexivity).
  unfold SFcompare. cbn [option_map]. f_equal.
  change (Pos.compare_cont Eq mb ma) with (mb ?= ma)%positive.
  change (Pos.compare_cont Eq ma mb) with (ma ?= mb)%positive.
  rewrite (Z.compare_antisym ea eb), (Pos.compare_antisym ma mb).
  destruct sa, sb; try reflexivity;
    destruct (ea ?= eb); cbn; try reflexivity;
    destruct (ma ?= mb)%positive; reflexivity.
Qed.

Lemma lt_not_ge (a b : float64) : F64.lt a b = true -> F64.ge a b = false.
Proof.
  unfold F64.lt, F64.ge, SFltb, SFleb. rewrite (SFcompare_antisym a b).
  destruct (SFcompare a b) as [[| |]|]; cbn; congruence.
Qed.

End FloatFacts.

(** ** The price format *)

Section FormatPrice.

Import PyFormat Reading DigitFacts LayoutFacts FloatFacts.

Lemma scaled_round_nonneg (m : positive) (e : Z) (d : nat) :
  0 <= scaled_round m e d.
Proof.
  apply scaled_round_lower; [lia | intros _; lia | intros _].
  assert (0 < 10 ^ Z.of_nat d) by (apply Z.pow_pos_nonneg; lia). lia.
Qed.

Lemma long_integral_part (ip fp : list ascii) :
  digits ip -> digits fp -> length fp = 2%nat ->
  100000 <= value (ip ++ fp) -> (4 <= length ip)%nat.
Proof.
  intros Hi Hf Hl Hv.
  assert (Hall : digits (ip ++ fp)) by (apply Forall_app; split; assumption).
  pose proof (value_bounds _ Hall) as Hb. rewrite length_app, Hl in Hb.
  destruct (le_lt_dec 4 (length ip)) as [H|H]; [exact H|exfalso].
  assert (10 ^ Z.of_nat (length ip + 2) <= 10 ^ 5)
    by (apply Z.pow_le_mono_r; lia).
  change (10 ^ 5) with 100000 in *. lia.
Qed.

(** C7: the formatted price starts with "$".  A price that compares
    [>= 1000] is written with its integral digits in comma-separated
    groups of three (at least two groups), a point and exactly two
    fractional digits; a price below 1000 is written with an optional
    minus sign, integral digits without any separator, a point and exactly
    four fractional digits.  In both cases the digits are the price
    rounded to that many places.  999.5 gives "$999.5000" and 1000 gives
    "$1,000.00".  ([F64.valid] holds of every binary64 number: the mantissa
    and exponent are the canonical ones.) *)
Theorem format_price_layout :
  (forall p : float64,
      F64.valid p = true -> F64.is_finite p = true ->
      F64.ge p (F64.of_Z 1000) = true ->
      exists groups frac,
        list_ascii_of_string (format_price p) =
          "$"%char :: join ","%char groups ++ "."%char :: frac /\
        (2 <= length groups)%nat /\ thousands groups /\
        digits (concat groups) /\
        length frac = 2%nat /\ digits frac /\
        rounds p 2 (value (concat groups ++ frac)))
  /\ (forall p : float64,
        F64.is_finite p = true ->
        F64.lt p (F64.of_Z 1000) = true ->
        exists ip frac,
          list_ascii_of_string (format_price p) =
            "$"%char :: (if F64.sign_bit p then ["-"%char] else [])
              ++ ip ++ "."%char :: frac /\
          ip <> [] /\ digits ip /\
          length frac = 4%nat /\ digits frac /\
          rounds p 4 (value (ip ++ frac)))
  /\ format_price (F64.dyadic 1999 (-1)) = "$999.5000"%string
  /\ format_price (F64.of_Z 1000) = "$1,000.00"%string.
Proof.
  split; [|split; [|split; vm_compute; reflexivity]].
  - intros p Hvalid Hfin Hge.
    destruct p as [s|s| |s m e]; try discriminate Hfin.
    { unfold F64.ge in Hge. rewrite of_Z_1000 in Hge. discriminate Hge. }
    destruct (ge_1000_finite s m e Hvalid Hge) as [-> Hlow].
    unfold format_price. rewrite Hge, list_ascii_of_string_of_list_ascii.
    cbn [format_float places].
    destruct (fixed_spec {| plus := false; comma := true; places := 2 |} false
                (scaled_round m e 2) (scaled_round_nonneg m e 2) ltac:(discriminate))
      as (ip & fp & E & Hne & Hlen & Hip & Hfp & Hval).
    cbn [plus comma places sign_text app] in E, Hlen.
    destruct (group3_spec ip Hne) as (gs & Hj & Hc & Ht).
    exists gs, fp. rewrite E, Hj, Hc.
    split; [reflexivity|].
    split.
    { apply thousands_long; [exact Ht|]. rewrite Hc.
      apply (long_integral_part ip fp Hip Hfp Hlen). rewrite Hval. exact Hlow. }
    split; [exact Ht|]. split; [exact Hip|]. split; [exact Hlen|].
    split; [exact Hfp|].
    cbn [rounds]. rewrite Hval. apply scaled_round_nearest.
  - intros p Hfin Hlt.
    pose proof (lt_not_ge p (F64.of_Z 1000) Hlt) as Hge.
    unfold format_price. rewrite Hge, list_ascii_of_string_of_list_ascii.
    destruct p as [s|s| |s m e]; try discriminate Hfin;
      cbn [format_float places F64.sign_bit].
    + destruct (fixed_spec {| plus := false; comma := false; places := 4 |} s 0
                  ltac:(lia) ltac:(discriminate))
        as (ip & fp & E & Hne & Hlen & Hip & Hfp & Hval).
      cbn [plus comma places sign_text] in E, Hlen.
      exists ip, fp. rewrite E. repeat (split; [assumption || reflexivity|]).
      exact Hval.
    + destruct (fixed_spec {| plus := false; comma := false; places := 4 |} s
                  (scaled_round m e 4) (scaled_round_nonneg m e 4)
                  ltac:(discriminate))
        as (ip & fp & E & Hne & Hlen & Hip & Hfp & Hval).
      cbn [plus comma places sign_text] in E, Hlen.
      exists ip, fp. rewrite E. repeat (split; [assumption || reflexivity|]).
      cbn [rounds]. rewrite Hval. apply scaled_round_nearest.
Qed.

End FormatPrice.

Lemma format_price_layout_witness :
  (exists groups frac,
     list_ascii_of_string (format_price (F64.of_Z 1234567)) =
       "$"%char :: Reading.join ","%char groups ++ "."%char :: frac /\
     (2 <= length groups)%nat /\ length frac = 2%nat)
  /\ (exists ip frac,
        list_ascii_of_string (format_price (F64.dyadic (-1999) (-1))) =
          "$"%char :: ["-"%char] ++ ip ++ "."%char :: frac /\
        length frac = 4%nat).
Proof.
  split.
  - destruct (proj1 format_price_layout (F64.of_Z 1234567)
                eq_refl eq_refl eq_refl)
      as (groups & frac & E & Hg & _ & _ & Hf & _).
    exists groups, frac. auto.
  - destruct (proj1 (proj2 format_price_layout) (F64.dyadic (-1999) (-1))
                eq_refl eq_refl)
      as (ip & frac & E & _ & _ & Hf & _).
    exists ip, frac. auto.
Defined.

(** * Further properties *)

(** ** The frame made from an answer *)





(** ** The cached fetch, once more *)

Section CacheFacts.

Variable exchange : nat -> Key -> Res (list OHLCV).

(** What a call does when the cache has nothing to serve for the key. *)
Lemma fetch_miss_entry (symbol timeframe : string) (limit : Z) (w : World) :
  let k := (symbol, timeframe, limit) in
  cache_read w k = None ->
  exists r w1 e,
    fetch_crypto_data exchange symbol timeframe limit w = (inr r, w1) /\
    (r, cached_elements e) = outcome symbol (exchange (length (calls w)) k) /\
    cached_value e = r /\ stored_at e = clock w /\
    cache w1 = <[k := e]> (cache w) /\ clock w1 = clock w /\
    calls w1 = calls w ++ [k] /\ ui w1 = ui w ++ cached_elements e.
Proof.
  intros k Hmiss.
  pose proof (fetch_miss exchange symbol timeframe limit w Hmiss) as H. fold k in H.
  unfold outcome.
  destruct (exchange (length (calls w)) k ≫= make_frame) as [err|df].
  - exists None. eexists.
    exists {| cached_value := None;
              cached_elements := [st_error (error_text symbol err)];
              stored_at := clock w |}.
    split; [exact H|]. cbn. repeat split.
  - exists (Some df). eexists.
    exists {| cached_value := Some df; cached_elements := [];
              stored_at := clock w |}.
    split; [exact H|]. cbn. rewrite app_nil_r. repeat split.
Qed.

(** X2: once the entry of the key is 300 seconds old, the call sends
    exactly one request, returns what comes of it (the frame, or [None] when
    the request or the conversion of its timestamps raises) and stores that
    stamped with the current time. *)
Theorem fetch_after_expiry :
  forall (symbol timeframe : string) (limit : Z) (w : World) (e : CacheEntry),
    let k := (symbol, timeframe, limit) in
    cache w !! k = Some e ->
    ttl <= clock w - stored_at e ->
    exists r w1 e',
      fetch_crypto_data exchange symbol timeframe limit w = (inr r, w1) /\
      r = match exchange (length (calls w)) k ≫= make_frame with
          | inr df => Some df
          | inl _ => None
          end /\
      calls w1 = calls w ++ [k] /\
      cache w1 !! k = Some e' /\ cached_value e' = r /\
      stored_at e' = clock w.
Proof.
  intros symbol timeframe limit w e k He Hold.
  assert (Hmiss : cache_read w k = None)
    by (apply (cache_read_stale w k e He); lia).
  destruct (fetch_miss_entry symbol timeframe limit w Hmiss)
    as (r & w1 & e' & H & Hr & Hv & Hs & Hc & _ & Hcalls & _).
  exists r, w1, e'. split; [exact H|]. split.
  { fold k in Hr. unfold outcome in Hr.
    destruct (exchange (length (calls w)) k ≫= make_frame);
      injection Hr as -> _; reflexivity. }
  split; [exact Hcalls|].
  split; [rewrite Hc; apply lookup_insert_eq|]. split; assumption.
Qed.


End CacheFacts.

Lemma fetch_after_expiry_witness :
  exists r w1,
    fetch_crypto_data steady_exchange "BTC/USDT" "1d" 30
      (advance 300
         (cache_write ("BTC/USDT", "1d", 30)%string
            {| cached_value := None; cached_elements := []; stored_at := 0 |}
            initial_world)) = (inr r, w1) /\
    (exists df, r = Some df /\ length df = 2%nat) /\
    calls w1 = [("BTC/USDT", "1d", 30)%string].
Proof.
  destruct (fetch_after_expiry steady_exchange "BTC/USDT" "1d" 30
              (advance 300
                 (cache_write ("BTC/USDT", "1d", 30)%string
                    {| cached_value := None; cached_elements := [];
                       stored_at := 0 |} initial_world))
              {| cached_value := None; cached_elements := []; stored_at := 0 |})
    as (r & w1 & e' & H & Hr & Hcalls & _).
  - cbn. apply lookup_insert_eq.
  - cbn. unfold ttl. lia.
  - exists r, w1. split; [exact H|]. split; [|exact Hcalls].
    vm_compute in Hr. eexists. split; [exact Hr | reflexivity].
Defined.


(** ** Passes of the fetch loop *)

Lemma metrics_loop_uniform (items : Dict.t DataFrame) :
  exists r es, forall w, metrics_loop items w = (r, replay es w).
Proof.
  induction items as [|[s df] items (r & es & IH)].
  - exists (inr tt), []. intros w. cbn. now rewrite replay_nil.
  - destruct (metrics df) as [e|m] eqn:Hm.
    + exists (inl e), []. intros w. rewrite metrics_loop_cons, Hm.
      now rewrite replay_nil.
    + exists r, (widgets (placement s).1 (placement s).2 m ++ es). intros w.
      rewrite metrics_loop_cons, Hm, display_placement. cbn [snd].
      now rewrite IH, replay_replay.
Qed.

Lemma render_uniform (items : Dict.t DataFrame) :
  exists r es, forall w, render items w = (r, replay es w).
Proof.
  unfold render, lift, emit, mbind, M_bind.
  destruct (add_traces items []) as [e|fig].
  - exists (inl e), []. intros w. now rewrite replay_nil.
  - destruct (metrics_loop_uniform items) as (r & es & H).
    exists r, ([plotly_chart fig] ++ [st_header "📊 Market Overview"] ++ es).
    intros w. now rewrite H, !replay_replay, app_assoc.
Qed.

Section Runs.

Variable exchange : nat -> Key -> Res (list OHLCV).

Lemma main_unfold (days : Z) (w w1 w2 w3 : World)
    (r1 r2 r3 : option DataFrame) :
  fetch_crypto_data exchange "BTC/USDT" "1d" days w = (inr r1, w1) ->
  fetch_crypto_data exchange "ETH/USDT" "1d" days w1 = (inr r2, w2) ->
  fetch_crypto_data exchange "SOL/USDT" "1d" days w2 = (inr r3, w3) ->
  main exchange days w =
    render (fetched [("BTC/USDT"%string, r1); ("ETH/USDT"%string, r2);
                     ("SOL/USDT"%string, r3)]) w3.
Proof.
  intros H1 H2 H3. unfold main. unfold mbind at 1, M_bind at 1.
  now rewrite (fetch_all_three exchange days w w1 w2 w3 r1 r2 r3 H1 H2 H3).
Qed.

(** X4: from any state, one run of [main] sends at most one request per
    configured symbol, in the configured order, and nothing else. *)
Theorem main_sends_at_most_three :
  forall (days : Z) (w : World),
  exists new,
    calls (snd (main exchange days w)) = calls w ++ new /\
    new `sublist_of` requests days.
Proof.
  intros days w.
  destruct (fetch_returns exchange "BTC/USDT" "1d" days w)
    as (r1 & w1 & _ & H1 & _ & _ & C1).
  destruct (fetch_returns exchange "ETH/USDT" "1d" days w1)
    as (r2 & w2 & _ & H2 & _ & _ & C2).
  destruct (fetch_returns exchange "SOL/USDT" "1d" days w2)
    as (r3 & w3 & _ & H3 & _ & _ & C3).
  rewrite (main_unfold days w w1 w2 w3 r1 r2 r3 H1 H2 H3).
  destruct (render_uniform
              (fetched [("BTC/USDT"%string, r1); ("ETH/USDT"%string, r2);
                        ("SOL/USDT"%string, r3)])) as (r & es & ->).
  cbn [snd replay calls]. unfold requests.
  destruct C3 as [-> | ->], C2 as [-> | ->], C1 as [-> | ->];
    rewrite <- ?app_assoc; eexists; (split; [try reflexivity|]);
    try (rewrite <- (app_nil_r (calls w)) at 1; reflexivity);
    cbn [app]; repeat (first [apply sublist_nil | apply sublist_skip
                             | apply sublist_cons]).
Qed.


(** A pass of the fetch loop that finds the cache empty. *)
Lemma fetch_all_cold (days : Z) (w : World) :
  cache w = ∅ ->
  let n := length (calls w) in
  let k1 : Key := ("BTC/USDT", "1d", days)%string in
  let k2 : Key := ("ETH/USDT", "1d", days)%string in
  let k3 : Key := ("SOL/USDT", "1d", days)%string in
  exists e1 e2 e3 w3,
    (cached_value e1, cached_elements e1) = outcome "BTC/USDT" (exchange n k1) /\
    (cached_value e2, cached_elements e2) = outcome "ETH/USDT" (exchange (S n) k2) /\
    (cached_value e3, cached_elements e3) = outcome "SOL/USDT" (exchange (S (S n)) k3) /\
    stored_at e1 = clock w /\ stored_at e2 = clock w /\ stored_at e3 = clock w /\
    fetch_all exchange symbols days [] w =
      (inr (fetched [("BTC/USDT"%string, cached_value e1);
                     ("ETH/USDT"%string, cached_value e2);
                     ("SOL/USDT"%string, cached_value e3)]), w3) /\
    cache w3 = <[k3 := e3]> (<[k2 := e2]> (<[k1 := e1]> ∅)) /\
    clock w3 = clock w /\
    calls w3 = calls w ++ requests days /\
    ui w3 = ui w ++ cached_elements e1 ++ cached_elements e2
              ++ cached_elements e3.
Proof.
  intros Hc n k1 k2 k3.
  assert (Hm1 : cache_read w k1 = None)
    by (unfold cache_read; now rewrite Hc, lookup_empty).
  destruct (fetch_miss_entry exchange "BTC/USDT" "1d" days w Hm1)
    as (r1 & w1 & e1 & H1 & Ho1 & Hv1 & Hs1 & Hc1 & Hk1 & Hl1 & Hu1).
  fold k1 in Ho1, Hc1, Hl1. fold n in Ho1.
  assert (Hm2 : cache_read w1 k2 = None).
  { unfold cache_read. rewrite Hc1, Hc.
    rewrite lookup_insert_ne by (unfold k1, k2; congruence).
    now rewrite lookup_empty. }
  destruct (fetch_miss_entry exchange "ETH/USDT" "1d" days w1 Hm2)
    as (r2 & w2 & e2 & H2 & Ho2 & Hv2 & Hs2 & Hc2 & Hk2 & Hl2 & Hu2).
  fold k2 in Ho2, Hc2, Hl2.
  assert (Hn1 : length (calls w1) = S n) by (rewrite Hl1, length_app; cbn; lia).
  rewrite Hn1 in Ho2.
  assert (Hm3 : cache_read w2 k3 = None).
  { unfold cache_read. rewrite Hc2, Hc1, Hc.
    rewrite lookup_insert_ne by (unfold k2, k3; congruence).
    rewrite lookup_insert_ne by (unfold k1, k3; congruence).
    now rewrite lookup_empty. }
  destruct (fetch_miss_entry exchange "SOL/USDT" "1d" days w2 Hm3)
    as (r3 & w3 & e3 & H3 & Ho3 & Hv3 & Hs3 & Hc3 & Hk3 & Hl3 & Hu3).
  fold k3 in Ho3, Hc3, Hl3.
  assert (Hn2 : length (calls w2) = S (S n))
    by (rewrite Hl2, length_app, Hn1; cbn; lia).
  rewrite Hn2 in Ho3.
  rewrite <- Hv1 in H1, Ho1. rewrite <- Hv2 in H2, Ho2. rewrite <- Hv3 in H3, Ho3.
  exists e1, e2, e3, w3.
  split; [exact Ho1|]. split; [exact Ho2|]. split; [exact Ho3|].
  split; [exact Hs1|]. split; [congruence|]. split; [congruence|].
  split; [exact (fetch_all_three exchange days w w1 w2 w3 _ _ _ H1 H2 H3)|].
  split; [rewrite Hc3, Hc2, Hc1, Hc; reflexivity|].
  split; [congruence|].
  split; [rewrite Hl3, Hl2, Hl1; unfold requests; now rewrite <- !app_assoc|].
  rewrite Hu3, Hu2, Hu1. now rewrite <- !app_assoc.
Qed.



(** X7: when the cache is empty and all three requests fail, the fetch loop
    still ends normally, with an empty [crypto_data], after showing one error
    message per symbol; rendering that empty map shows an empty chart and
    the header, no metric, and ends normally too. *)
Theorem fetch_loop_when_every_fetch_fails :
  forall (days : Z) (w : World) (x1 x2 x3 : exn),
    cache w = ∅ ->
    exchange (length (calls w)) ("BTC/USDT", "1d", days)%string = inl x1 ->
    exchange (S (length (calls w))) ("ETH/USDT", "1d", days)%string = inl x2 ->
    exchange (S (S (length (calls w)))) ("SOL/USDT", "1d", days)%string = inl x3 ->
    exists w3,
      fetch_all exchange symbols days [] w = (inr [], w3) /\
      calls w3 = calls w ++ requests days /\
      ui w3 = ui w ++ [ st_error (error_text "BTC/USDT" x1);
                        st_error (error_text "ETH/USDT" x2);
                        st_error (error_text "SOL/USDT" x3) ] /\
      render [] w3 =
        (inr tt,
         replay [plotly_chart []; st_header "📊 Market Overview"] w3).
Proof.
  intros days w x1 x2 x3 Hc F1 F2 F3.
  destruct (fetch_all_cold days w Hc)
    as (e1 & e2 & e3 & w3 & O1 & O2 & O3 & _ & _ & _ & Hall & _ & _ & Hcalls & Hui).
  rewrite F1 in O1. rewrite F2 in O2. rewrite F3 in O3.
  cbn in O1, O2, O3.
  injection O1 as V1 E1. injection O2 as V2 E2. injection O3 as V3 E3.
  rewrite V1, V2, V3 in Hall. rewrite E1, E2, E3 in Hui.
  exists w3. split; [exact Hall|]. split; [exact Hcalls|].
  split; [exact Hui|].
  unfold render, lift, emit, mbind, M_bind. cbn [add_traces metrics_loop].
  unfold mret, M_ret, Res_ret. cbn. now rewrite replay_replay.
Qed.

End Runs.


Lemma fetch_loop_when_every_fetch_fails_witness :
  exists w3,
    fetch_all dead_exchange symbols 7 [] initial_world = (inr [], w3) /\
    ui w3 =
      [ st_error "Error fetching data for BTC/USDT: binance GET failed";
        st_error "Error fetching data for ETH/USDT: binance GET failed";
        st_error "Error fetching data for SOL/USDT: binance GET failed" ] /\
    render [] w3 =
      (inr tt, replay [plotly_chart []; st_header "📊 Market Overview"] w3).
Proof.
  destruct (fetch_loop_when_every_fetch_fails dead_exchange 7 initial_world
              (Exn "NetworkError" "binance GET failed")
              (Exn "NetworkError" "binance GET failed")
              (Exn "NetworkError" "binance GET failed")
              eq_refl eq_refl eq_refl eq_refl)
    as (w3 & H & _ & Hui & Hr).
  exists w3. split; [exact H|]. split; [exact Hui | exact Hr].
Defined.

(** ** Symbols without a colour *)

Lemma scatter_unconfigured (symbol : string) (df : DataFrame) :
  symbol ∉ symbols -> scatter symbol df = inl (KeyError symbol).
Proof.
  intros Hn. unfold scatter, Dict.item, colors. cbn [Dict.get].
  assert (H1 : String.eqb symbol "BTC/USDT" = false).
  { apply String.eqb_neq. intros ->. apply Hn. apply list_elem_of_here. }
  assert (H2 : String.eqb symbol "ETH/USDT" = false).
  { apply String.eqb_neq. intros ->. apply Hn.
    apply list_elem_of_further, list_elem_of_here. }
  assert (H3 : String.eqb symbol "SOL/USDT" = false).
  { apply String.eqb_neq. intros ->. apply Hn.
    do 2 apply list_elem_of_further. apply list_elem_of_here. }
  rewrite H1, H2, H3. reflexivity.
Qed.

Lemma add_traces_unconfigured (before after : Dict.t DataFrame)
    (symbol : string) (df : DataFrame) :
  Forall (fun item => item.1 ∈ symbols) before ->
  symbol ∉ symbols ->
  forall fig,
    add_traces (before ++ (symbol, df) :: after) fig = inl (KeyError symbol).
Proof.
  intros Hconf Hout. induction Hconf as [|[s d] before Hs _ IH]; intros fig.
  - cbn [app add_traces]. now rewrite (scatter_unconfigured symbol df Hout).
  - destruct (scatter_configured s d Hs) as (tr & Htr & _).
    cbn [app add_traces]. rewrite Htr. cbn. apply IH.
Qed.

(** X8: when [crypto_data] holds symbols that have no entry in [colors],
    building the chart raises [KeyError] for the first of them and nothing
    at all is put on the page, not even the metrics that would have been
    accepted. *)
Theorem render_symbol_without_colour :
  forall (before after : Dict.t DataFrame) (symbol : string) (df : DataFrame)
         (w : World),
    Forall (fun item => item.1 ∈ symbols) before ->
    symbol ∉ symbols ->
    render (before ++ (symbol, df) :: after) w = (inl (KeyError symbol), w).
Proof.
  intros before after symbol df w Hconf Hout.
  unfold render, lift, mbind, M_bind.
  now rewrite (add_traces_unconfigured before after symbol df Hconf Hout).
Qed.

Lemma render_symbol_without_colour_witness :
  render [("BTC/USDT"%string, sample_frame); ("DOGE/USDT"%string, sample_frame);
          ("XRP/USDT"%string, sample_frame)]
    initial_world = (inl (KeyError "DOGE/USDT"), initial_world).
Proof.
  apply (render_symbol_without_colour
           [("BTC/USDT"%string, sample_frame)]
           [("XRP/USDT"%string, sample_frame)] "DOGE/USDT" sample_frame
           initial_world).
  - repeat constructor.
  - intros H. unfold symbols in H.
    repeat (apply elem_of_cons in H as [H | H]; [discriminate H|]).
    inversion H.
Defined.

(** X9: whatever the metrics loop does afterwards, for configured symbols
    the chart, with one trace per entry plotting its timestamps and closes,
    and the header are on the page before the first metric. *)
Theorem render_shows_chart_first :
  forall (items : Dict.t DataFrame),
    Forall (fun item => item.1 ∈ symbols) items ->
    exists fig r rest,
      Forall2 plots items fig /\
      forall w,
        render items w =
          (r, replay (plotly_chart fig :: st_header "📊 Market Overview"
                        :: rest) w).
Proof.
  intros items Hconf.
  destruct (add_traces_plots items Hconf) as (fig & Hfig & Hadd).
  destruct (metrics_loop_uniform items) as (r & es & Hloop).
  exists fig, r, es. split; [exact Hfig|]. intros w.
  rewrite (render_traced items fig w (Hadd [])).
  now rewrite Hloop, replay_replay.
Qed.

Lemma render_shows_chart_first_witness :
  exists fig r rest,
    Forall2 plots [("SOL/USDT"%string, take 1 sample_frame)] fig /\
    forall w,
      render [("SOL/USDT"%string, take 1 sample_frame)] w =
        (r, replay (plotly_chart fig :: st_header "📊 Market Overview"
                      :: rest) w).
Proof.
  apply render_shows_chart_first.
  repeat constructor.
Defined.

(** ** More on the metrics *)

(** X10: the metrics read only the closes of the last two candles and the
    high and low of the last one: two series that agree there have the same
    metrics, whatever their length, their earlier candles, their opens,
    volumes and timestamps. *)
Theorem metrics_read_last_two_only :
  forall (pre pre' : DataFrame) (c2 c1 c2' c1' : Row),
    close c1 = close c1' -> close c2 = close c2' ->
    high c1 = high c1' -> low c1 = low c1' ->
    metrics (pre ++ [c2; c1]) = metrics (pre' ++ [c2'; c1']).
Proof.
  intros pre pre' c2 c1 c2' c1' Hc1 Hc2 Hh Hl.
  rewrite !metrics_two_last. now rewrite Hc1, Hc2, Hh, Hl.
Qed.

Lemma metrics_read_last_two_only_witness :
  metrics sample_frame = metrics (drop 1 sample_frame).
Proof.
  apply (metrics_read_last_two_only
           [sample_row 86400000 (F64.of_Z 120) (F64.of_Z 80) (F64.of_Z 100)] []);
    reflexivity.
Defined.

Lemma sub_same (s : bool) (m : positive) (e : Z) :
  F64.sub (S754_finite s m e) (S754_finite s m e) = S754_zero false.
Proof.
  unfold F64.sub, SFsub. rewrite Z.sub_diag. reflexivity.
Qed.

(** X11: when the last two closes are the same finite non-zero price the
    change is a zero and is shown as "+0.00%" ("-0.00%" for a negative
    price). *)
Theorem metrics_unchanged_close :
  forall (df : DataFrame) (c2 c1 : Row) (s : bool) (m : positive) (e : Z),
    (2 <= length df)%nat ->
    df !! (length df - 2)%nat = Some c2 ->
    df !! (length df - 1)%nat = Some c1 ->
    close c2 = S754_finite s m e ->
    close c1 = S754_finite s m e ->
    exists mt, metrics df = inr mt /\
      price_change mt = S754_zero s /\
      format_change (price_change mt) =
        (if s then "-0.00%" else "+0.00%")%string.
Proof.
  intros df c2 c1 s m e Hlen H2 H1 Hc2 Hc1.
  destruct (two_last_rows df c2 c1 H2 H1 Hlen) as [pre ->].
  rewrite metrics_two_last. eexists. split; [reflexivity|].
  cbn [price_change]. rewrite Hc1, Hc2, sub_same.
  replace (F64.of_Z 100) with (S754_finite false 7036874417766400 (-46))
    by (vm_compute; reflexivity).
  destruct s; split; reflexivity.
Qed.

Lemma metrics_unchanged_close_witness :
  exists mt,
    metrics [sample_row 1 (F64.of_Z 6) (F64.of_Z 4) (F64.of_Z 5);
             sample_row 2 (F64.of_Z 7) (F64.of_Z 3) (F64.of_Z 5)] = inr mt /\
    price_change mt = S754_zero false /\
    format_change (price_change mt) = "+0.00%"%string.
Proof.
  apply (metrics_unchanged_close
           [sample_row 1 (F64.of_Z 6) (F64.of_Z 4) (F64.of_Z 5);
            sample_row 2 (F64.of_Z 7) (F64.of_Z 3) (F64.of_Z 5)]
           (sample_row 1 (F64.of_Z 6) (F64.of_Z 4) (F64.of_Z 5))
           (sample_row 2 (F64.of_Z 7) (F64.of_Z 3) (F64.of_Z 5))
           false 5629499534213120 (-50));
    [cbn; lia | reflexivity | reflexivity | reflexivity | reflexivity].
Defined.

(** ** More on the formats *)

(** X12: a price that is not finite is not rejected: NaN fails the
    comparison with 1000 and is shown as "$nan", the infinities are shown as
    "$inf" and "$-inf", without digits or decimals. *)
Theorem format_price_not_finite :
  forall p : float64,
    F64.is_finite p = false ->
    format_price p =
      match p with
      | S754_infinity false => "$inf"
      | S754_infinity true => "$-inf"
      | _ => "$nan"
      end%string.
Proof.
  intros p H. destruct p as [s|[|]| |s m e]; try discriminate H;
    vm_compute; reflexivity.
Qed.

Lemma format_price_not_finite_witness :
  format_price (F64.div (F64.of_Z 0) (F64.of_Z 0)) = "$nan"%string.
Proof.
  apply (format_price_not_finite (F64.div (F64.of_Z 0) (F64.of_Z 0))).
  reflexivity.
Defined.

Section Boundary.

Import PyFormat FloatFacts.

Lemma scaled_round_just_below_1000 (m : positive) :
  8796092582403349 <= Z.pos m < 8796093022208000 ->
  scaled_round m (-43) 4 = 10000000.
Proof.
  intros Hm. unfold scaled_round.
  change (0 <=? -43) with false. cbv iota.
  change (2 ^ (- -43)) with 8796093022208.
  change (10 ^ Z.of_nat 4) with 10000.
  assert (Hq : Z.pos m * 10000 / 8796093022208 = 9999999).
  { symmetry. apply (Z.div_unique _ _ _ (Z.pos m * 10000 - 9999999 * 8796093022208)); lia. }
  pose proof (Z.div_mod (Z.pos m * 10000) 8796093022208 ltac:(lia)) as Hdm.
  rewrite Hq in Hdm |- *.
  destruct (2 * (Z.pos m * 10000 mod 8796093022208) ?= 8796093022208) eqn:Hc.
  - apply Z.compare_eq in Hc. lia.
  - rewrite Z.compare_lt_iff in Hc. lia.
  - reflexivity.
Qed.

Lemma SFcompare_positive (m1 m2 : positive) (e1 e2 : Z) :
  SFcompare (S754_finite false m1 e1) (S754_finite false m2 e2) =
    Some match e1 ?= e2 with
         | Lt => Lt
         | Gt => Gt
         | Eq => (m1 ?= m2)%positive
         end.
Proof. reflexivity. Qed.

(** X13: the two branches do not meet at 1000: every price below 1000 that
    rounds up to it at four decimals (from about 999.99995 on) is shown as
    "$1000.0000", without separator and with four decimals, while 1000 itself
    is shown as "$1,000.00". *)
Theorem format_price_just_below_1000 :
  forall p : float64,
    F64.ge p rounds_up_to_1000 = true ->
    F64.lt p (F64.of_Z 1000) = true ->
    format_price p = "$1000.0000"%string.
Proof.
  intros p Hge Hlt.
  pose proof (lt_not_ge p (F64.of_Z 1000) Hlt) as Hnot.
  unfold format_price. rewrite Hnot.
  unfold F64.lt in Hlt. rewrite of_Z_1000 in Hlt.
  unfold F64.ge, rounds_up_to_1000 in Hge.
  destruct p as [s|s| |s m e].
  { destruct s; discriminate Hge. }
  { destruct s; [discriminate Hge | discriminate Hlt]. }
  { discriminate Hge. }
  destruct s; [discriminate Hge|].
  unfold SFleb in Hge. unfold SFltb in Hlt.
  rewrite SFcompare_positive in Hge, Hlt.
  rewrite (Z.compare_antisym e (-43)) in Hge.
  destruct (e ?= -43) eqn:He; cbn [CompOpp] in Hge;
    try discriminate Hge; try discriminate Hlt.
  apply Z.compare_eq in He. subst e.
  assert (Hm : 8796092582403349 <= Z.pos m < 8796093022208000).
  { split.
    - change ((8796092582403349 ?= m)%positive <> Gt).
      destruct (8796092582403349 ?= m)%positive; discriminate.
    - change ((m ?= 8796093022208000)%positive = Lt).
      destruct (m ?= 8796093022208000)%positive;
        [discriminate Hlt | reflexivity | discriminate Hlt]. }
  clear Hge Hlt Hnot.
  cbn [format_float places]. rewrite (scaled_round_just_below_1000 m Hm).
  vm_compute. reflexivity.
Qed.

End Boundary.

Lemma format_price_just_below_1000_witness :
  format_price (F64.div (F64.of_Z 99999999) (F64.of_Z 100000))
    = "$1000.0000"%string.
Proof.
  apply (format_price_just_below_1000
           (F64.div (F64.of_Z 99999999) (F64.of_Z 100000)));
    reflexivity.
Defined.

Section ChangeFormat.

Import PyFormat Reading DigitFacts LayoutFacts FloatFacts.

(** X14: the change shown beside a price always carries its sign: for a
    finite change the text is "+" or "-" (by the sign bit, so a negative zero
    reads "-0.00%"), integral digits, a point, exactly two decimals and "%",
    the digits being the change rounded to two places. *)
Theorem format_change_layout :
  forall c : float64,
    F64.is_finite c = true ->
    exists ip frac,
      list_ascii_of_string (format_change c) =
        (if F64.sign_bit c then "-"%char else "+"%char)
          :: ip ++ "."%char :: frac ++ ["%"%char] /\
      ip <> [] /\ digits ip /\ length frac = 2%nat /\ digits frac /\
      rounds c 2 (value (ip ++ frac)).
Proof.
  intros c Hfin. unfold format_change.
  rewrite list_ascii_of_string_of_list_ascii.
  assert (Hfix : forall s n, 0 <= n ->
            exists ip fp,
              fixed {| plus := true; comma := false; places := 2 |} s n =
                (if s then "-"%char else "+"%char) :: ip ++ "."%char :: fp /\
              ip <> [] /\ digits ip /\ length fp = 2%nat /\ digits fp /\
              value (ip ++ fp) = n).
  { intros s n Hn.
    destruct (fixed_spec {| plus := true; comma := false; places := 2 |} s n Hn
                ltac:(discriminate))
      as (ip & fp & E & Hne & Hlen & Hip & Hfp & Hval).
    exists ip, fp. rewrite E. cbn [plus comma places sign_text] in *.
    destruct s; repeat (split; [assumption || reflexivity|]); exact Hval. }
  destruct c as [s|s| |s m e]; try discriminate Hfin;
    cbn [format_float places F64.sign_bit rounds].
  - destruct (Hfix s 0 ltac:(lia)) as (ip & fp & E & Hne & Hip & Hlen & Hfp & Hval).
    exists ip, fp. rewrite E. cbn [app]. rewrite <- app_assoc. cbn [app].
    repeat (split; [assumption || reflexivity|]). exact Hval.
  - destruct (Hfix s (scaled_round m e 2) (scaled_round_nonneg m e 2))
      as (ip & fp & E & Hne & Hip & Hlen & Hfp & Hval).
    exists ip, fp. rewrite E. cbn [app]. rewrite <- app_assoc. cbn [app].
    repeat (split; [assumption || reflexivity|]).
    rewrite Hval. apply scaled_round_nearest.
Qed.

End ChangeFormat.

Lemma format_change_layout_witness :
  exists ip frac,
    list_ascii_of_string (format_change (F64.dyadic (-19) (-1))) =
      "-"%char :: ip ++ "."%char :: frac ++ ["%"%char] /\
    length frac = 2%nat.
Proof.
  destruct (format_change_layout (F64.dyadic (-19) (-1)) eq_refl)
    as (ip & frac & E & _ & _ & Hlen & _).
  exists ip, frac. split; [exact E | exact Hlen].
Defined.

(** ** The fill colour *)

Lemma hex_digit_not_hash (c : ascii) (d : Z) :
  Str.hex_digit c = Some d -> Ascii.eqb c "#" = false.
Proof.
  intros H. destruct (Ascii.eqb c "#") eqn:E; [|reflexivity].
  apply Ascii.eqb_eq in E. subst c. vm_compute in H. discriminate H.
Qed.

Lemma hex_digit_range (c : ascii) (d : Z) :
  Str.hex_digit c = Some d -> 0 <= d <= 15.
Proof.
  unfold Str.hex_digit. intros H.
  repeat match type of H with
         | (if ?b then _ else _) = _ =>
             let E := fresh "E" in destruct b eqn:E
         end; try discriminate H; injection H as <-;
    repeat match goal with
           | E : (_ && _) = true |- _ => apply andb_true_iff in E as [? ?]
           | E : (_ <=? _) = true |- _ => apply Z.leb_le in E
           end; lia.
Qed.

(** X15: for a colour written "#" and six hexadecimal digits (either case),
    the fill colour is "rgba(R, G, B, 0.2)" where R, G and B are the values
    of the three digit pairs, each between 0 and 255, in decimal. *)
Theorem rgba_of_hex_colour :
  forall (h1 h2 h3 h4 h5 h6 : ascii) (d1 d2 d3 d4 d5 d6 : Z),
    Str.hex_digit h1 = Some d1 -> Str.hex_digit h2 = Some d2 ->
    Str.hex_digit h3 = Some d3 -> Str.hex_digit h4 = Some d4 ->
    Str.hex_digit h5 = Some d5 -> Str.hex_digit h6 = Some d6 ->
    rgba (String "#" (String h1 (String h2 (String h3 (String h4
            (String h5 (String h6 EmptyString)))))))
    = inr ("rgba(" +:+ Str.of_Z (16 * d1 + d2) +:+ ", "
             +:+ Str.of_Z (16 * d3 + d4) +:+ ", "
             +:+ Str.of_Z (16 * d5 + d6) +:+ ", 0.2)")
    /\ 0 <= 16 * d1 + d2 <= 255 /\ 0 <= 16 * d3 + d4 <= 255
    /\ 0 <= 16 * d5 + d6 <= 255.
Proof.
  intros h1 h2 h3 h4 h5 h6 d1 d2 d3 d4 d5 d6 H1 H2 H3 H4 H5 H6.
  split.
  - unfold rgba. cbn [Str.lstrip].
    change (Ascii.eqb "#" "#") with true. cbv iota.
    rewrite (hex_digit_not_hash h1 d1 H1).
    unfold Str.slice, Str.int16. cbn [String.substring Nat.sub].
    cbn [Str.hex_value]. rewrite H1, H2, H3, H4, H5, H6.
    cbn [mbind Res_bind mret Res_ret].
    replace (16 * (16 * 0 + d1) + d2) with (16 * d1 + d2) by lia.
    replace (16 * (16 * 0 + d3) + d4) with (16 * d3 + d4) by lia.
    replace (16 * (16 * 0 + d5) + d6) with (16 * d5 + d6) by lia.
    reflexivity.
  - pose proof (hex_digit_range h1 d1 H1). pose proof (hex_digit_range h2 d2 H2).
    pose proof (hex_digit_range h3 d3 H3). pose proof (hex_digit_range h4 d4 H4).
    pose proof (hex_digit_range h5 d5 H5). pose proof (hex_digit_range h6 d6 H6).
    lia.
Qed.

Lemma rgba_of_hex_colour_witness :
  rgba "#F7931a" = inr "rgba(247, 147, 26, 0.2)"%string.
Proof.
  destruct (rgba_of_hex_colour "F" "7" "9" "3" "1" "a" 15 7 9 3 1 10
              eq_refl eq_refl eq_refl eq_refl eq_refl eq_refl) as [H _].
  rewrite H. vm_compute. reflexivity.
Defined.
